(** * Rubberband selection handler of X6

    A shallow embedding of [packages/x6/src/handler/rubberband/handler.ts]
    (class [RubberbandHandler]) and the properties of its drag state machine.

    Conventions of the embedding:
    - a JavaScript [number] holding a pixel coordinate is a [Z];
      [Math.abs], [Math.min], [Math.max] are [Z.abs], [Z.min], [Z.max];
    - [null] and [undefined] are both [None]: the handler only ever tests
      them with [!= null], [== null] or truthiness, which do not tell them
      apart;
    - DOM elements and listener closures are objects with identity: they are
      handles ([nat]) into a store, so that [div], [sharedDiv], the
      container's child list and a pending fade-out timer can alias one
      element;
    - every method is a function on the whole [World] (handler fields, host
      graph, browser environment); a method that mutates its event argument
      also returns the event. *)

From stdpp Require Import gmap strings list.
From Stdlib Require Import ZArith Lia.

Local Open Scope Z_scope.

(** ** Data *)

Module Point.
Record t := mk { x : Z; y : Z }.
End Point.

(** Arguments of [new Rectangle(this.x, this.y, this.width, this.height)];
    a handler field never assigned is [undefined], hence [option]. *)
Module Rectangle.
Record t := mk { x : option Z; y : option Z;
                 width : option Z; height : option Z }.
End Rectangle.

(** The inline style of an element; only the properties the handler reads or
    writes. Lengths written through [util.toPx] are kept as the number of
    pixels. *)
Module Style.
Record t := mk {
  display : string;
  opacity : string;
  border : string;
  background : string;
  position : string;
  left : option Z;
  top : option Z;
  width : option Z;
  height : option Z;
  pointerEvents : string;
  transition : string }.

Definition empty : t :=
  mk "" "" "" "" "" None None None None "" "".
End Style.

Module Element.
Record t := mk { className : string; style : Style.t }.
Definition blank : t := mk "" Style.empty.
End Element.

(** What [getRubberbandStyle] returns. [opacity] is the number already
    rendered as text, [None] when it is missing or falsy (so that
    [style.opacity || ''] is the empty string). *)
Module RubberbandStyle.
Record t := mk {
  className : string;
  opacity : option string;
  border : string;
  background : string }.
End RubberbandStyle.

(** The platform event and its [MouseEventEx] wrapper. *)
Module MouseEvent.
Record t := mk {
  id : nat;
  altKey : bool;
  clientX : Z;
  clientY : Z;
  multiTouch : bool;
  defaultPrevented : bool }.

Definition preventDefault (e : t) : t :=
  mk (id e) (altKey e) (clientX e) (clientY e) (multiTouch e) true.
End MouseEvent.

Module MouseEventEx.
Record t := mk {
  e : MouseEvent.t;
  consumed : bool;
  (* [getState() != null]: a cell lies under the pointer *)
  onCell : bool }.

Definition getEvent (me : t) : MouseEvent.t := e me.
Definition getClientX (me : t) : Z := MouseEvent.clientX (e me).
Definition getClientY (me : t) : Z := MouseEvent.clientY (e me).
Definition isConsumed (me : t) : bool := consumed me.

(** Modelled from the spec: class [MouseEventEx] (../mouse-event) is not
    part of the sources. The spec gives the event "a consume operation
    (optionally non-default-preventing)" and "a consumed query":
    [consume()] marks the event consumed and prevents the platform default,
    [consume(false)] marks it consumed and leaves the default alone. *)
Definition consume (preventDefault : option bool) (me : t) : t :=
  let shouldPreventDefault := default true preventDefault in
  mk (if shouldPreventDefault then MouseEvent.preventDefault (e me) else e me)
     true (onCell me).
End MouseEventEx.

(** Handles. *)
Definition HTMLDivElement := nat.
Definition Listener := nat.

(** ** The handler's own fields *)

Module Handler.
Record t := mk {
  (* base class [MouseHandler] *)
  enabled : bool;
  fadeOut : bool;
  div : option HTMLDivElement;
  sharedDiv : option HTMLDivElement;
  onMouseMove : option Listener;
  onMouseUp : option Listener;
  origin : option Point.t;
  currentX : Z;
  currentY : Z;
  x : option Z;
  y : option Z;
  width : option Z;
  height : option Z }.

(** Field initialisers of the class. *)
Definition initial : t :=
  mk true false None None None None None 0 0 None None None None.

Definition set_enabled v h :=
  mk v (fadeOut h) (div h) (sharedDiv h) (onMouseMove h) (onMouseUp h)
     (origin h) (currentX h) (currentY h) (x h) (y h) (width h) (height h).
Definition set_fadeOut v h :=
  mk (enabled h) v (div h) (sharedDiv h) (onMouseMove h) (onMouseUp h)
     (origin h) (currentX h) (currentY h) (x h) (y h) (width h) (height h).
Definition set_div v h :=
  mk (enabled h) (fadeOut h) v (sharedDiv h) (onMouseMove h) (onMouseUp h)
     (origin h) (currentX h) (currentY h) (x h) (y h) (width h) (height h).
Definition set_sharedDiv v h :=
  mk (enabled h) (fadeOut h) (div h) v (onMouseMove h) (onMouseUp h)
     (origin h) (currentX h) (currentY h) (x h) (y h) (width h) (height h).
Definition set_listeners m u h :=
  mk (enabled h) (fadeOut h) (div h) (sharedDiv h) m u
     (origin h) (currentX h) (currentY h) (x h) (y h) (width h) (height h).
Definition set_origin v h :=
  mk (enabled h) (fadeOut h) (div h) (sharedDiv h) (onMouseMove h)
     (onMouseUp h) v (currentX h) (currentY h) (x h) (y h) (width h)
     (height h).
Definition set_current cx cy h :=
  mk (enabled h) (fadeOut h) (div h) (sharedDiv h) (onMouseMove h)
     (onMouseUp h) (origin h) cx cy (x h) (y h) (width h) (height h).
Definition set_rect vx vy vw vh h :=
  mk (enabled h) (fadeOut h) (div h) (sharedDiv h) (onMouseMove h)
     (onMouseUp h) (origin h) (currentX h) (currentY h)
     (Some vx) (Some vy) (Some vw) (Some vh).
End Handler.

(** ** The host graph *)

Module Graph.
(** [graph.options.rubberband]; [style] stands for the part of the options
    that [getRubberbandStyle] (./option, not in the sources) resolves
    against the rectangle. *)
Record Options := mkOptions {
  enabled : bool;
  fadeOut : bool;
  style : Z -> Z -> Z -> Z -> RubberbandStyle.t }.

Record t := mk {
  options : Options;
  tolerance : Z;
  panX : Z;
  panY : Z;
  prefixCls : string;
  (* [graph.container]: its overlay children, in document order, and what
     [util.getScrollOrigin] and [util.getOffset] report for it *)
  children : list HTMLDivElement;
  scrollOrigin : Point.t;
  offset : Point.t;
  (* subscriptions of this handler made with [graph.on] *)
  onMouseEvent : bool;
  onPan : bool;
  onGesture : bool;
  (* the handler is in the graph's handler list *)
  hasHandler : bool;
  (* calls of [selectCellsInRegion], oldest first *)
  selectCalls : list (Rectangle.t * MouseEvent.t) }.

Definition set_enabled v g :=
  mk (mkOptions v (fadeOut (options g)) (style (options g)))
     (tolerance g) (panX g) (panY g) (prefixCls g) (children g)
     (scrollOrigin g) (offset g) (onMouseEvent g) (onPan g) (onGesture g)
     (hasHandler g) (selectCalls g).
Definition set_pan vx vy g :=
  mk (options g) (tolerance g) vx vy (prefixCls g) (children g)
     (scrollOrigin g) (offset g) (onMouseEvent g) (onPan g) (onGesture g)
     (hasHandler g) (selectCalls g).
Definition set_children v g :=
  mk (options g) (tolerance g) (panX g) (panY g) (prefixCls g) v
     (scrollOrigin g) (offset g) (onMouseEvent g) (onPan g) (onGesture g)
     (hasHandler g) (selectCalls g).
Definition set_subscriptions m p ge g :=
  mk (options g) (tolerance g) (panX g) (panY g) (prefixCls g) (children g)
     (scrollOrigin g) (offset g) m p ge (hasHandler g) (selectCalls g).
Definition set_hasHandler v g :=
  mk (options g) (tolerance g) (panX g) (panY g) (prefixCls g) (children g)
     (scrollOrigin g) (offset g) (onMouseEvent g) (onPan g) (onGesture g)
     v (selectCalls g).
Definition set_selectCalls v g :=
  mk (options g) (tolerance g) (panX g) (panY g) (prefixCls g) (children g)
     (scrollOrigin g) (offset g) (onMouseEvent g) (onPan g) (onGesture g)
     (hasHandler g) v.

(** [graph.selectCellsInRegion(rect, e)]: the host command; the embedding
    records the call. *)
Definition selectCellsInRegion (rect : Rectangle.t) (e : MouseEvent.t) g :=
  set_selectCalls (selectCalls g ++ [(rect, e)]) g.
End Graph.

(** ** The browser: [document], [window], [detector] *)

Module Browser.
Record t := mk {
  IS_FIREFOX : bool;
  (* the elements made by [document.createElement] *)
  elements : gmap HTMLDivElement Element.t;
  (* closures allocated so far *)
  nextListener : Listener;
  (* listeners of [document] *)
  mousemove : list Listener;
  mouseup : list Listener;
  (* pending [window.setTimeout] callbacks: each removes its element *)
  timers : list HTMLDivElement;
  (* calls of [util.clearSelection] *)
  selectionCleared : nat }.

Definition set_elements v b :=
  mk (IS_FIREFOX b) v (nextListener b) (mousemove b) (mouseup b)
     (timers b) (selectionCleared b).
Definition set_nextListener v b :=
  mk (IS_FIREFOX b) (elements b) v (mousemove b) (mouseup b)
     (timers b) (selectionCleared b).
Definition set_documentListeners m u b :=
  mk (IS_FIREFOX b) (elements b) (nextListener b) m u
     (timers b) (selectionCleared b).
Definition set_timers v b :=
  mk (IS_FIREFOX b) (elements b) (nextListener b)
     (mousemove b) (mouseup b) v (selectionCleared b).
Definition set_selectionCleared v b :=
  mk (IS_FIREFOX b) (elements b) (nextListener b)
     (mousemove b) (mouseup b) (timers b) v.

(** [document.createElement('div')]: a new element, distinct from every
    element made before; its handle is returned. *)
Definition createElement (b : t) : HTMLDivElement * t :=
  let d := fresh (dom (elements b)) in
  (d, set_elements (<[d := Element.blank]> (elements b)) b).

(** An assignment through a reference to an element. *)
Definition update (d : HTMLDivElement) (f : Element.t -> Element.t) b :=
  set_elements (alter f d (elements b)) b.

Definition setTimeout (d : HTMLDivElement) b := set_timers (timers b ++ [d]) b.
End Browser.

Record World := mkWorld {
  this : Handler.t;
  graph : Graph.t;
  browser : Browser.t }.

Definition with_this (f : Handler.t -> Handler.t) (w : World) : World :=
  mkWorld (f (this w)) (graph w) (browser w).
Definition with_graph (f : Graph.t -> Graph.t) (w : World) : World :=
  mkWorld (this w) (f (graph w)) (browser w).
Definition with_browser (f : Browser.t -> Browser.t) (w : World) : World :=
  mkWorld (this w) (graph w) (f (browser w)).

(** ** Collaborators that are imported, not defined, by the source file *)

(** [container.appendChild(d)], the DOM's own: [d] becomes the last child; a
    node that is already a child is moved, not duplicated. *)
Definition appendChild (d : HTMLDivElement) (g : Graph.t) : Graph.t :=
  Graph.set_children (filter (λ c, c ≠ d) (Graph.children g) ++ [d]) g.

(** Modelled from the spec: [util.removeElement] (package x6-util) is not
    part of the sources; the spec counts it among the "DOM element
    creation/removal primitives": the overlay is "removed", that is,
    detached from its parent if it has one. *)
Definition removeElement (d : HTMLDivElement) (g : Graph.t) : Graph.t :=
  Graph.set_children (filter (λ c, c ≠ d) (Graph.children g)) g.

Definition removeListener (l : option Listener) (ls : list Listener)
  : list Listener :=
  match l with
  | Some f => filter (λ f', f' ≠ f) ls
  | None => ls
  end.

Definition addListener (l : option Listener) (ls : list Listener)
  : list Listener :=
  match l with
  | Some f => if decide (f ∈ ls) then ls else ls ++ [f]
  | None => ls
  end.

(** Modelled from the spec: [DomEvent.addMouseListeners] and
    [DomEvent.removeMouseListeners] (package x6-dom-event) are not part of
    the sources; the spec has the detachment "unconditional
    (idempotent-safe) so repeated resets never throw": a [null] listener is
    skipped, a listener is attached at most once, and detaching one that is
    not attached does nothing. Called as [(document, null, move, up)]. *)
Definition addMouseListeners (move up : option Listener) (b : Browser.t) :=
  Browser.set_documentListeners
    (addListener move (Browser.mousemove b))
    (addListener up (Browser.mouseup b)) b.

Definition removeMouseListeners (move up : option Listener) (b : Browser.t) :=
  Browser.set_documentListeners
    (removeListener move (Browser.mousemove b))
    (removeListener up (Browser.mouseup b)) b.

(** Modelled from the spec: [util.clearSelection] (package x6-util) is not
    part of the sources; it "clears any native text selection"; the calls
    are counted. *)
Definition clearSelection (b : Browser.t) : Browser.t :=
  Browser.set_selectionCleared (S (Browser.selectionCleared b)) b.

(** Modelled from the spec: [DomEvent.isAltDown] (package x6-dom-event) is
    not part of the sources; it tests the "designated modifier key held",
    the event's [altKey]. *)
Definition isAltDown (e : MouseEvent.t) : bool := MouseEvent.altKey e.

(** Modelled from the spec: [applyClassName] (../../util) is not part of
    the sources; it names the overlay after the graph's "style-class-prefix
    string", the block name and the class of the resolved style. *)
Definition applyClassName (prefixCls name className : string) : string :=
  prefixCls +:+ "-" +:+ name +:+ " " +:+ className.

(** Modelled from the spec: the base class [MouseHandler] (../mouse-handler)
    is not part of the sources. The spec has a pointer-down "ignored unless
    controller is enabled AND the event is a primary-button press on empty
    canvas (not on a shape) AND not a multi-touch gesture": the handler is
    valid for an event when it is enabled and the event is not consumed
    yet; the cell under the pointer and the multi-touch test are read off
    the event. No statement below depends on how these are decided. *)
Definition isEnabled (w : World) : bool := Handler.enabled (this w).
Definition isValid (e : MouseEventEx.t) (w : World) : bool :=
  isEnabled w && negb (MouseEventEx.isConsumed e).
Definition isOnCell (e : MouseEventEx.t) : bool := MouseEventEx.onCell e.
Definition isMultiTouchEvent (e : MouseEventEx.t) : bool :=
  MouseEvent.multiTouch (MouseEventEx.getEvent e).
Definition setEnadled (v : bool) (w : World) : World :=
  with_this (Handler.set_enabled v) w.

(** ** Methods of [RubberbandHandler] *)

Definition config (w : World) : World :=
  let options := Graph.options (graph w) in
  let w := setEnadled (Graph.enabled options) w in
  with_this (Handler.set_fadeOut (Graph.fadeOut options)) w.

Definition enable (w : World) : World :=
  let w := with_graph (Graph.set_enabled true) w in
  setEnadled true w.

Definition disable (w : World) : World :=
  let w := with_graph (Graph.set_enabled false) w in
  setEnadled false w.

Definition isForceRubberbandEvent (e : MouseEventEx.t) : bool :=
  isAltDown (MouseEventEx.getEvent e).

Definition getPosition (e : MouseEventEx.t) (w : World) : Point.t :=
  let origin := Graph.scrollOrigin (graph w) in
  let offset := Graph.offset (graph w) in
  let origin := Point.mk (Point.x origin - Point.x offset)
                         (Point.y origin - Point.y offset) in
  Point.mk (MouseEventEx.getClientX e + Point.x origin)
           (MouseEventEx.getClientY e + Point.y origin).

(** [start] makes two closures; they reach [document] only on Firefox. *)
Definition start (x y : Z) (w : World) : World :=
  let w := with_this (Handler.set_origin (Some (Point.mk x y))) w in
  let move := Browser.nextListener (browser w) in
  let up := S move in
  let w := with_browser (Browser.set_nextListener (S up)) w in
  let w := with_this (Handler.set_listeners (Some move) (Some up)) w in
  if Browser.IS_FIREFOX (browser w)
  then with_browser (addMouseListeners (Handler.onMouseMove (this w))
                                       (Handler.onMouseUp (this w))) w
  else w.

Definition prepare (e : MouseEventEx.t) (w : World)
  : World * MouseEventEx.t :=
  let p := getPosition e w in
  let w := start (Point.x p) (Point.y p) w in
  (w, MouseEventEx.consume (Some false) e).

Definition mouseDown (e : MouseEventEx.t) (w : World)
  : World * MouseEventEx.t :=
  if isValid e w && negb (isOnCell e) && negb (isMultiTouchEvent e)
  then prepare e w
  else (w, e).

Definition createShape (w : World) : HTMLDivElement * World :=
  let '(sharedDiv, w) :=
    match Handler.sharedDiv (this w) with
    | None =>
        let (d, b) := Browser.createElement (browser w) in
        (d, with_this (Handler.set_sharedDiv (Some d))
              (with_browser (λ _, b) w))
    | Some d => (d, w)
    end in
  let w := with_graph (appendChild sharedDiv) w in
  let result := sharedDiv in
  (* if fade out, then create a new div everytime *)
  let w := if Handler.fadeOut (this w)
           then with_this (Handler.set_sharedDiv None) w
           else w in
  (result, w).

(** The style written on the overlay by [repaint]. *)
Definition paint (prefixCls : string) (st : RubberbandStyle.t)
    (x y width height : Z) (el : Element.t) : Element.t :=
  let s := Element.style el in
  Element.mk
    (applyClassName prefixCls "rubberband" (RubberbandStyle.className st))
    (Style.mk (Style.display s)
              (default "" (RubberbandStyle.opacity st))
              (RubberbandStyle.border st)
              (RubberbandStyle.background st)
              "absolute"
              (Some x) (Some y)
              (Some (Z.max 1 width)) (Some (Z.max 1 height))
              (Style.pointerEvents s) (Style.transition s)).

Definition repaint (w : World) : World :=
  match Handler.div (this w), Handler.origin (this w) with
  | Some div, Some origin =>
      let x := Handler.currentX (this w) - Graph.panX (graph w) in
      let y := Handler.currentY (this w) - Graph.panY (graph w) in
      let this_x := Z.min (Point.x origin) x in
      let this_y := Z.min (Point.y origin) y in
      let this_width := Z.max (Point.x origin) x - this_x in
      let this_height := Z.max (Point.y origin) y - this_y in
      let w := with_this
                 (Handler.set_rect this_x this_y this_width this_height) w in
      let style := Graph.style (Graph.options (graph w))
                     this_x this_y this_width this_height in
      with_browser
        (Browser.update div
           (paint (Graph.prefixCls (graph w)) style
                  this_x this_y this_width this_height)) w
  | _, _ => w
  end.

Definition update (x y : Z) (w : World) : World :=
  let w := with_this (Handler.set_current x y) w in
  repaint w.

Definition mouseMove (e : MouseEventEx.t) (w : World)
  : World * MouseEventEx.t :=
  if negb (MouseEventEx.isConsumed e) then
    match Handler.origin (this w) with
    | Some origin =>
        let p := getPosition e w in
        let dx := Point.x origin - Point.x p in
        let dy := Point.y origin - Point.y p in
        let tol := Graph.tolerance (graph w) in
        if bool_decide (Handler.div (this w) ≠ None)
           || (Z.abs dx >? tol) || (Z.abs dy >? tol)
        then
          let w := match Handler.div (this w) with
                   | None =>
                       let (d, w) := createShape w in
                       with_this (Handler.set_div (Some d)) w
                   | Some _ => w
                   end in
          (* Clears selection while rubberbanding. *)
          let w := with_browser clearSelection w in
          let w := update (Point.x p) (Point.y p) w in
          (w, MouseEventEx.consume None e)
        else (w, e)
    | None => (w, e)
    end
  else (w, e).

(** [div.style.display] is read through the reference [div]; the handler
    never holds a handle that is not in the store ([wf] below), so
    the last case is not reached. *)
Definition isActive (w : World) : bool :=
  match Handler.div (this w) with
  | Some div =>
      match Browser.elements (browser w) !! div with
      | Some el => bool_decide (Style.display (Element.style el) ≠ "none")
      | None => true
      end
  | None => false
  end.

Definition execute (e : MouseEvent.t) (w : World) : World :=
  let rect := Rectangle.mk (Handler.x (this w)) (Handler.y (this w))
                (Handler.width (this w)) (Handler.height (this w)) in
  with_graph (Graph.selectCellsInRegion rect e) w.

(** The style changes that start the fade. *)
Definition fade (el : Element.t) : Element.t :=
  let s := Element.style el in
  Element.mk (Element.className el)
    (Style.mk (Style.display s) "0" (Style.border s) (Style.background s)
              (Style.position s) (Style.left s) (Style.top s)
              (Style.width s) (Style.height s)
              "none" "all 0.2s linear").

Definition reset (w : World) : World :=
  let w :=
    match Handler.div (this w) with
    | Some div =>
        if Handler.fadeOut (this w) then
          let temp := div in
          let w := with_browser (Browser.update temp fade) w in
          with_browser (Browser.setTimeout temp) w
        else with_graph (removeElement div) w
    | None => w
    end in
  let w := with_browser
             (removeMouseListeners (Handler.onMouseMove (this w))
                                   (Handler.onMouseUp (this w))) w in
  let w := with_this (Handler.set_listeners None None) w in
  let w := with_this (Handler.set_current 0 0) w in
  let w := with_this (Handler.set_origin None) w in
  with_this (Handler.set_div None) w.

Definition mouseUp (e : MouseEventEx.t) (w : World)
  : World * MouseEventEx.t :=
  let active := isActive w in
  let w := reset w in
  if active
  then (execute (MouseEventEx.getEvent e) w, MouseEventEx.consume None e)
  else (w, e).

(** The body of [dispose]; the decorator [@MouseHandler.dispose()] is not
    part of the sources. *)
Definition dispose (w : World) : World :=
  let w := with_graph (Graph.set_hasHandler false) w in
  let w := with_graph
             (λ g, Graph.set_subscriptions (Graph.onMouseEvent g) false
                     (Graph.onGesture g) g) w in
  let w := with_graph
             (λ g, Graph.set_subscriptions (Graph.onMouseEvent g)
                     (Graph.onPan g) false g) w in
  let w := with_graph
             (λ g, Graph.set_subscriptions false (Graph.onPan g)
                     (Graph.onGesture g) g) w in
  let w := reset w in
  match Handler.sharedDiv (this w) with
  | Some _ => with_this (Handler.set_sharedDiv None) w
  | None => w
  end.

(** The three callbacks the constructor makes. *)
Definition onMouseEvent (eventName : string) (e : MouseEventEx.t) (w : World)
  : World * MouseEventEx.t :=
  if bool_decide (eventName = "mouseDown") && isForceRubberbandEvent e
  then prepare e w
  else (w, e).

Definition onPan (w : World) : World := repaint w.

Definition onGesture (w : World) : World :=
  match Handler.origin (this w) with
  | Some _ => reset w
  | None => w
  end.

(** [new RubberbandHandler(graph)] in a given browser. *)
Definition constructor (g : Graph.t) (b : Browser.t) : World :=
  let w := mkWorld Handler.initial g b in
  let w := config w in
  let w := with_graph
             (λ g, Graph.set_subscriptions true (Graph.onPan g)
                     (Graph.onGesture g) g) w in
  let w := with_graph
             (λ g, Graph.set_subscriptions (Graph.onMouseEvent g) true
                     (Graph.onGesture g) g) w in
  with_graph
    (λ g, Graph.set_subscriptions (Graph.onMouseEvent g) (Graph.onPan g)
            true g) w.

(** ** The controller as a state machine

    What the host and the browser can do to a constructed handler. [Move] and
    [Up] stand for both ways the methods are reached: the graph's handler
    dispatch and, on Firefox, the listeners [start] puts on [document]. *)
Inductive Op :=
| Notify (eventName : string) (e : MouseEventEx.t)
| Down (e : MouseEventEx.t)
| Move (e : MouseEventEx.t)
| Up (e : MouseEventEx.t)
| Pan (panX panY : Z)
| Gesture
| Reset
| Dispose
| Enable
| Disable
| Config
| Timeout.

(** The oldest pending fade-out timer fires: [util.removeElement(temp)]. *)
Definition timeout (w : World) : World :=
  match Browser.timers (browser w) with
  | temp :: rest =>
      with_graph (removeElement temp)
        (with_browser (Browser.set_timers rest) w)
  | [] => w
  end.

Definition step (w : World) (op : Op) : World :=
  match op with
  | Notify eventName e =>
      if Graph.onMouseEvent (graph w)
      then fst (onMouseEvent eventName e w) else w
  | Down e => fst (mouseDown e w)
  | Move e => fst (mouseMove e w)
  | Up e => fst (mouseUp e w)
  | Pan panX panY =>
      let w := with_graph (Graph.set_pan panX panY) w in
      if Graph.onPan (graph w) then onPan w else w
  | Gesture => if Graph.onGesture (graph w) then onGesture w else w
  | Reset => reset w
  | Dispose => dispose w
  | Enable => enable w
  | Disable => disable w
  | Config => config w
  | Timeout => timeout w
  end.

Definition run (ops : list Op) (w : World) : World := foldl step w ops.

(** The worlds a handler can be in: constructed on some graph in some
    browser, then driven by any operations. *)
Definition reachable (w : World) : Prop :=
  ∃ g b ops, w = run ops (constructor g b).

(** The drag state of the spec's data model, read off the fields. *)
Inductive DragState := Idle | Armed | Dragging.

Definition dragState (w : World) : DragState :=
  match Handler.origin (this w), Handler.div (this w) with
  | None, _ => Idle
  | Some _, None => Armed
  | Some _, Some _ => Dragging
  end.

(** ** Vocabulary of the statements *)

(** A move whose distance from the origin stays within the graph's
    tolerance on both axes: neither [Math.abs(dx) > tol] nor
    [Math.abs(dy) > tol]. *)
Definition withinTolerance (w : World) (origin : Point.t)
    (e : MouseEventEx.t) : Prop :=
  let p := getPosition e w in
  Z.abs (Point.x origin - Point.x p) ≤ Graph.tolerance (graph w)
  ∧ Z.abs (Point.y origin - Point.y p) ≤ Graph.tolerance (graph w).

(** The two ways a pointer-down is accepted: the handler's [mouseDown] with
    all its gates open, and the [mouseEvent] subscription with Alt held. *)
Inductive pointerDown (w : World) (e : MouseEventEx.t) : World → Prop :=
| pointerDown_normal :
    isValid e w && negb (isOnCell e) && negb (isMultiTouchEvent e) = true →
    pointerDown w e (step w (Down e))
| pointerDown_forced :
    Graph.onMouseEvent (graph w) = true →
    isForceRubberbandEvent e = true →
    pointerDown w e (step w (Notify "mouseDown" e)).

(** The move that turns an armed drag into a visible one: not consumed,
    origin set, no overlay yet, tolerance exceeded on some axis. *)
Definition exceedsTolerance (w : World) (e : MouseEventEx.t) : Prop :=
  MouseEventEx.isConsumed e = false
  ∧ Handler.div (this w) = None
  ∧ ∃ origin, Handler.origin (this w) = Some origin
              ∧ ¬ withinTolerance w origin e.

(** What holds of the handler in every world it can reach. *)
Record wf (w : World) : Prop := mk_wf {
  wf_origin : is_Some (Handler.div (this w)) →
              is_Some (Handler.origin (this w));
  wf_div : ∀ d, Handler.div (this w) = Some d →
                d ∈ dom (Browser.elements (browser w));
  wf_sharedDiv : ∀ d, Handler.sharedDiv (this w) = Some d →
                      d ∈ dom (Browser.elements (browser w));
  wf_fadeOut : Handler.fadeOut (this w) =
               Graph.fadeOut (Graph.options (graph w));
  wf_fresh : Handler.fadeOut (this w) = true →
             Handler.sharedDiv (this w) = None }.

(** ** Sample worlds

    The scenario values of the specification: tolerance 4, no pan, no
    scroll, an empty document. *)
Definition sampleStyle : RubberbandStyle.t :=
  RubberbandStyle.mk "" None "" "".

Definition sampleGraph (fadeOut : bool) : Graph.t :=
  Graph.mk (Graph.mkOptions true fadeOut (λ _ _ _ _, sampleStyle))
    4 0 0 "x6" [] (Point.mk 0 0) (Point.mk 0 0) false false false true [].

Definition sampleBrowser : Browser.t :=
  Browser.mk false ∅ 0%nat [] [] [] 0%nat.

Definition sampleWorld (fadeOut : bool) : World :=
  constructor (sampleGraph fadeOut) sampleBrowser.

Definition mouseAt (id : nat) (x y : Z) : MouseEventEx.t :=
  MouseEventEx.mk (MouseEvent.mk id false x y false false) false false.


(** Pointer-down at (10,10); then a move to (50,40). *)
Definition armedWorld (fadeOut : bool) : World :=
  run [Down (mouseAt 1 10 10)] (sampleWorld fadeOut).

Definition draggingWorld (fadeOut : bool) : World :=
  run [Down (mouseAt 1 10 10); Move (mouseAt 2 50 40)] (sampleWorld fadeOut).

(** Alt held, already consumed, over a cell, multi-touch. *)
Definition forcedEvent : MouseEventEx.t :=
  MouseEventEx.mk (MouseEvent.mk 1 true 10 10 true false) true true.

(** ** Vocabulary of the further properties *)

(** The rectangle [repaint] stores for an origin and a pointer position
    already less the pan offset. *)
Definition envelope (origin : Point.t) (x y : Z) : Rectangle.t :=
  Rectangle.mk (Some (Z.min (Point.x origin) x))
               (Some (Z.min (Point.y origin) y))
               (Some (Z.max (Point.x origin) x - Z.min (Point.x origin) x))
               (Some (Z.max (Point.y origin) y - Z.min (Point.y origin) y)).

(** The rectangle the handler holds. *)
Definition rectangle (w : World) : Rectangle.t :=
  Rectangle.mk (Handler.x (this w)) (Handler.y (this w))
               (Handler.width (this w)) (Handler.height (this w)).

(** No element of the store is hidden with [display: none]. *)
Definition visible (m : gmap HTMLDivElement Element.t) : Prop :=
  ∀ d el, m !! d = Some el → Style.display (Element.style el) ≠ "none".

(** A browser in which no fade-out timer is pending and no element is
    hidden: the state of affairs before the handler has done anything. *)
Definition pristine (b : Browser.t) : Prop :=
  Browser.timers b = [] ∧ visible (Browser.elements b).

(** What holds of overlay, container and timers in every world reached
    from a pristine browser. *)
Record live (w : World) : Prop := mk_live {
  live_visible : visible (Browser.elements (browser w));
  live_timers : ∀ d, d ∈ Browser.timers (browser w) →
                     d ∈ dom (Browser.elements (browser w));
  live_div : ∀ d, Handler.div (this w) = Some d →
                  d ∈ Graph.children (graph w)
                  ∧ d ∉ Browser.timers (browser w);
  live_sync : Handler.fadeOut (this w) = false →
              Browser.timers (browser w) = [] }.

(** Bookkeeping the handler keeps between its fields. *)
Record tidy (w : World) : Prop := mk_tidy {
  tidy_enabled : Handler.enabled (this w) =
                 Graph.enabled (Graph.options (graph w));
  tidy_listeners :
    match Handler.origin (this w) with
    | Some _ => ∃ f, Handler.onMouseMove (this w) = Some f
                     ∧ Handler.onMouseUp (this w) = Some (S f)
    | None => Handler.onMouseMove (this w) = None
              ∧ Handler.onMouseUp (this w) = None
    end;
  tidy_current : Handler.div (this w) = None →
                 Handler.currentX (this w) = 0
                 ∧ Handler.currentY (this w) = 0 }.

(** The notifications of the graph's event bus. *)
Definition busOp (op : Op) : Prop :=
  match op with
  | Notify _ _ | Pan _ _ | Gesture => True
  | _ => False
  end.

(** What [reset] writes on an overlay it lets fade: [post] is [pre] with
    opacity 0, no pointer events and the 0.2s transition; class name and
    every other style property are those of [pre]. *)
Definition fading (pre post : Element.t) : Prop :=
  Style.opacity (Element.style post) = "0"
  ∧ Style.pointerEvents (Element.style post) = "none"
  ∧ Style.transition (Element.style post) = "all 0.2s linear"
  ∧ Element.className post = Element.className pre
  ∧ Style.display (Element.style post) = Style.display (Element.style pre)
  ∧ Style.border (Element.style post) = Style.border (Element.style pre)
  ∧ Style.background (Element.style post) =
    Style.background (Element.style pre)
  ∧ Style.position (Element.style post) = Style.position (Element.style pre)
  ∧ Style.left (Element.style post) = Style.left (Element.style pre)
  ∧ Style.top (Element.style post) = Style.top (Element.style pre)
  ∧ Style.width (Element.style post) = Style.width (Element.style pre)
  ∧ Style.height (Element.style post) = Style.height (Element.style pre).

(** The sample document on Firefox, where [start] puts its closures on
    [document]; and a pointer-down at (10,10) re-armed at (20,20) before
    any release. *)
Definition firefoxBrowser : Browser.t :=
  Browser.mk true ∅ 0%nat [] [] [] 0%nat.

Definition rearmedFirefoxWorld : World :=
  run [Down (mouseAt 1 10 10); Down (mouseAt 2 20 20)]
    (constructor (sampleGraph false) firefoxBrowser).

(** * Properties *)

(** Opens a world into its fields; the overlay, the shared overlay, the
    origin and the fade-out flag are split into cases. *)
Ltac open_world w :=
  let en := fresh "en" in
  let fo := fresh "fo" in
  destruct w as [[en fo [?|] [?|] ? ? [?|] ? ? ? ? ? ?] [] []];
  destruct fo.

(** Runs the field updates of the methods on an opened world; the element
    store, the lists and the arithmetic are left as they are. *)
Ltac norm :=
  cbv beta iota zeta delta
    [reset dispose start prepare update repaint execute createShape timeout
     onPan onGesture config enable disable setEnadled isEnabled
     with_this with_graph with_browser this graph browser dragState
     Handler.set_enabled Handler.set_fadeOut Handler.set_div
     Handler.set_sharedDiv Handler.set_listeners Handler.set_origin
     Handler.set_current Handler.set_rect
     Handler.enabled Handler.fadeOut Handler.div Handler.sharedDiv
     Handler.onMouseMove Handler.onMouseUp Handler.origin Handler.currentX
     Handler.currentY Handler.x Handler.y Handler.width Handler.height
     Graph.set_enabled Graph.set_pan Graph.set_children
     Graph.set_subscriptions Graph.set_hasHandler Graph.set_selectCalls
     Graph.selectCellsInRegion
     Graph.options Graph.tolerance Graph.panX Graph.panY Graph.prefixCls
     Graph.children Graph.scrollOrigin Graph.offset Graph.onMouseEvent
     Graph.onPan Graph.onGesture Graph.hasHandler Graph.selectCalls
     Browser.set_elements Browser.set_nextListener
     Browser.set_documentListeners Browser.set_timers
     Browser.set_selectionCleared Browser.update Browser.setTimeout
     Browser.createElement
     Browser.IS_FIREFOX Browser.elements Browser.nextListener
     Browser.mousemove Browser.mouseup Browser.timers
     Browser.selectionCleared
     removeMouseListeners addMouseListeners removeListener
     removeElement appendChild clearSelection fst snd
     step mouseMove mouseUp mouseDown onMouseEvent isActive isValid isOnCell
     isMultiTouchEvent isForceRubberbandEvent isAltDown getPosition
     MouseEventEx.getEvent MouseEventEx.getClientX MouseEventEx.getClientY
     MouseEventEx.isConsumed MouseEventEx.consume MouseEventEx.e
     MouseEventEx.consumed MouseEventEx.onCell
     MouseEvent.altKey MouseEvent.clientX MouseEvent.clientY
     MouseEvent.multiTouch Point.x Point.y].

(** ** [reset] *)

Lemma reset_this w :
  this (reset w) =
  Handler.mk (Handler.enabled (this w)) (Handler.fadeOut (this w))
    None (Handler.sharedDiv (this w)) None None None 0 0
    (Handler.x (this w)) (Handler.y (this w))
    (Handler.width (this w)) (Handler.height (this w)).
Proof. open_world w; norm; reflexivity. Qed.

Lemma reset_selectCalls w :
  Graph.selectCalls (graph (reset w)) = Graph.selectCalls (graph w).
Proof. open_world w; norm; reflexivity. Qed.

Lemma reset_elements_dom w :
  dom (Browser.elements (browser (reset w))) =
  dom (Browser.elements (browser w)).
Proof. open_world w; norm; try reflexivity; apply dom_alter_L. Qed.

Lemma reset_graph_idle w :
  Handler.div (this w) = None → graph (reset w) = graph w.
Proof. open_world w; norm; done. Qed.

Lemma reset_reset w : reset (reset w) = reset w.
Proof. open_world w; norm; reflexivity. Qed.

Lemma reset_dispose w : reset (dispose w) = dispose w.
Proof. open_world w; norm; reflexivity. Qed.

Lemma dispose_selectCalls w :
  Graph.selectCalls (graph (dispose w)) = Graph.selectCalls (graph w).
Proof. open_world w; norm; reflexivity. Qed.

Lemma not_elem_of_filter_ne (d : nat) (l : list nat) :
  d ∉ filter (λ c, c ≠ d) l.
Proof. rewrite list_elem_of_filter. tauto. Qed.

(** The overlay once [reset] is done with it: detached from the container,
    or fading with its removal scheduled. *)
Lemma reset_overlay w d :
  Handler.div (this w) = Some d →
  if Handler.fadeOut (this w)
  then Browser.elements (browser (reset w)) !! d =
         fade <$> Browser.elements (browser w) !! d
       ∧ Browser.timers (browser (reset w)) =
         Browser.timers (browser w) ++ [d]
  else d ∉ Graph.children (graph (reset w)).
Proof.
  open_world w; norm; intros [= <-].
  all: try (split; [by rewrite lookup_alter_eq | reflexivity]).
  all: apply not_elem_of_filter_ne.
Qed.

(** The closures of the drag are no longer listeners of [document]. *)
Lemma reset_listeners w :
  (∀ f, Handler.onMouseMove (this w) = Some f →
        f ∉ Browser.mousemove (browser (reset w)))
  ∧ (∀ f, Handler.onMouseUp (this w) = Some f →
          f ∉ Browser.mouseup (browser (reset w))).
Proof.
  open_world w; norm; split; intros f ->; apply not_elem_of_filter_ne.
Qed.

(** C7. [reset] is idempotent. It is a total function of the world (nothing
    in it can throw: the listeners it detaches may already be [null]); a
    second [reset] in a row changes nothing at all, so in particular it adds
    no call of [selectCellsInRegion]; neither does the first one. The same
    holds for a [reset] that follows [dispose]. *)
Theorem reset_idempotent (w : World) :
  reset (reset w) = reset w
  ∧ reset (dispose w) = dispose w
  ∧ Graph.selectCalls (graph (reset w)) = Graph.selectCalls (graph w)
  ∧ Graph.selectCalls (graph (reset (reset w))) = Graph.selectCalls (graph w)
  ∧ Graph.selectCalls (graph (reset (dispose w))) =
    Graph.selectCalls (graph w).
Proof.
  split_and!.
  - apply reset_reset.
  - apply reset_dispose.
  - apply reset_selectCalls.
  - by rewrite reset_reset, reset_selectCalls.
  - by rewrite reset_dispose, dispose_selectCalls.
Qed.

(** ** Gesture *)

Lemma fading_fade el : fading el (fade el).
Proof. unfold fading. split_and!; reflexivity. Qed.

(** The overlay that [reset] lets fade: restyled, still in the container. *)
Lemma reset_fading w d el :
  Handler.div (this w) = Some d →
  Handler.fadeOut (this w) = true →
  Browser.elements (browser w) !! d = Some el →
  ∃ el', Browser.elements (browser (reset w)) !! d = Some el'
         ∧ fading el el'
         ∧ graph (reset w) = graph w.
Proof.
  intros Hd Hf Hel. exists (fade el).
  pose proof (reset_overlay w d Hd) as H. rewrite Hf, Hel in H.
  split_and!; [apply H | apply fading_fade |].
  revert Hd Hf. clear. open_world w; norm; done.
Qed.

(** [reset] takes the closures the handler holds, and only those, off
    [document]. *)
Lemma reset_document_listeners w :
  Browser.mousemove (browser (reset w)) =
    removeListener (Handler.onMouseMove (this w))
      (Browser.mousemove (browser w))
  ∧ Browser.mouseup (browser (reset w)) =
    removeListener (Handler.onMouseUp (this w)) (Browser.mouseup (browser w)).
Proof. open_world w; norm; done. Qed.

Lemma reset_children w d :
  Handler.div (this w) = Some d →
  Handler.fadeOut (this w) = false →
  Graph.children (graph (reset w)) =
  filter (λ c, c ≠ d) (Graph.children (graph w)).
Proof. open_world w; norm; intros [= <-]; done. Qed.

(** C6 (amended). A gesture notification that arrives while a drag is in
    progress (origin set: Armed or Dragging) does a full [reset]: the state
    is Idle, origin and overlay reference are cleared, the current position
    is back at 0, the closures the handler holds are dropped and are no
    listeners of [document] (exactly they are taken off it), and
    [selectCellsInRegion] is not called. The overlay, if any, is removed
    from the container at once when fade-out is off; when it is on, the
    overlay stays in the container with opacity 0, no pointer events and
    the 0.2s transition, class name and the rest of its style unchanged,
    and its removal is queued. With no origin the notification changes
    nothing. *)
Theorem gesture_cancels_drag (w : World) :
  (is_Some (Handler.origin (this w)) →
   let w' := onGesture w in
   w' = reset w
   ∧ dragState w' = Idle
   ∧ Handler.origin (this w') = None
   ∧ Handler.div (this w') = None
   ∧ Handler.currentX (this w') = 0 ∧ Handler.currentY (this w') = 0
   ∧ Handler.onMouseMove (this w') = None
   ∧ Handler.onMouseUp (this w') = None
   ∧ (∀ f, Handler.onMouseMove (this w) = Some f →
           f ∉ Browser.mousemove (browser w'))
   ∧ (∀ f, Handler.onMouseUp (this w) = Some f →
           f ∉ Browser.mouseup (browser w'))
   ∧ (∀ d, Handler.div (this w) = Some d →
           if Handler.fadeOut (this w)
           then Browser.elements (browser w') !! d =
                  fade <$> Browser.elements (browser w) !! d
                ∧ Browser.timers (browser w') =
                  Browser.timers (browser w) ++ [d]
           else d ∉ Graph.children (graph w'))
   ∧ Graph.selectCalls (graph w') = Graph.selectCalls (graph w)
   ∧ Browser.mousemove (browser w') =
       removeListener (Handler.onMouseMove (this w))
         (Browser.mousemove (browser w))
   ∧ Browser.mouseup (browser w') =
       removeListener (Handler.onMouseUp (this w))
         (Browser.mouseup (browser w))
   ∧ (∀ d el, Handler.div (this w) = Some d →
              Handler.fadeOut (this w) = true →
              Browser.elements (browser w) !! d = Some el →
        ∃ el', Browser.elements (browser w') !! d = Some el'
               ∧ fading el el'
               ∧ graph w' = graph w)
   ∧ (∀ d, Handler.div (this w) = Some d →
           Handler.fadeOut (this w) = false →
        Graph.children (graph w') =
          filter (λ c, c ≠ d) (Graph.children (graph w))
        ∧ Browser.elements (browser w') = Browser.elements (browser w)
        ∧ Browser.timers (browser w') = Browser.timers (browser w)))
  ∧ (Handler.origin (this w) = None → onGesture w = w).
Proof.
  split.
  - intros [o Ho] w'.
    assert (E : w' = reset w) by (subst w'; unfold onGesture; by rewrite Ho).
    rewrite E. unfold dragState. rewrite reset_this. simpl.
    split_and!; try done; try apply reset_listeners;
      try apply reset_document_listeners.
    + apply reset_overlay.
    + apply reset_selectCalls.
    + apply reset_fading.
    + intros d Hd Hf. split; [by apply reset_children|].
      revert Hd Hf. clear. open_world w; norm; done.
  - intros Ho. unfold onGesture. by rewrite Ho.
Qed.

(** ** Repaint and pan *)

Lemma repaint_idle w :
  Handler.div (this w) = None ∨ Handler.origin (this w) = None →
  repaint w = w.
Proof. open_world w; norm; intros [?|?]; done. Qed.

Lemma repaint_frame w :
  Handler.origin (this (repaint w)) = Handler.origin (this w)
  ∧ Handler.div (this (repaint w)) = Handler.div (this w)
  ∧ Handler.sharedDiv (this (repaint w)) = Handler.sharedDiv (this w)
  ∧ Handler.currentX (this (repaint w)) = Handler.currentX (this w)
  ∧ Handler.currentY (this (repaint w)) = Handler.currentY (this w)
  ∧ Handler.onMouseMove (this (repaint w)) = Handler.onMouseMove (this w)
  ∧ Handler.onMouseUp (this (repaint w)) = Handler.onMouseUp (this w)
  ∧ Handler.fadeOut (this (repaint w)) = Handler.fadeOut (this w)
  ∧ Handler.enabled (this (repaint w)) = Handler.enabled (this w)
  ∧ graph (repaint w) = graph w.
Proof. open_world w; norm; split_and!; reflexivity. Qed.


Lemma repaint_rect w d o :
  Handler.div (this w) = Some d →
  Handler.origin (this w) = Some o →
  let cx := Handler.currentX (this w) - Graph.panX (graph w) in
  let cy := Handler.currentY (this w) - Graph.panY (graph w) in
  Handler.x (this (repaint w)) = Some (Z.min (Point.x o) cx)
  ∧ Handler.y (this (repaint w)) = Some (Z.min (Point.y o) cy)
  ∧ Handler.width (this (repaint w)) =
      Some (Z.max (Point.x o) cx - Z.min (Point.x o) cx)
  ∧ Handler.height (this (repaint w)) =
      Some (Z.max (Point.y o) cy - Z.min (Point.y o) cy).
Proof.
  open_world w; norm; intros [= <-] [= <-]; split_and!; reflexivity.
Qed.

Lemma repaint_element w d o :
  Handler.div (this w) = Some d →
  Handler.origin (this w) = Some o →
  let cx := Handler.currentX (this w) - Graph.panX (graph w) in
  let cy := Handler.currentY (this w) - Graph.panY (graph w) in
  let x := Z.min (Point.x o) cx in
  let y := Z.min (Point.y o) cy in
  let width := Z.max (Point.x o) cx - x in
  let height := Z.max (Point.y o) cy - y in
  Browser.elements (browser (repaint w)) !! d =
    paint (Graph.prefixCls (graph w))
      (Graph.style (Graph.options (graph w)) x y width height)
      x y width height <$> Browser.elements (browser w) !! d.
Proof.
  open_world w; norm; intros [= <-] [= <-]; by rewrite lookup_alter_eq.
Qed.

(** C2. A repaint with overlay [d] and origin [o] set stores the envelope of
    the origin and the current position less the pan offset, and writes it
    on the overlay with width and height raised to at least 1: a width or
    height of zero is rendered as 1. *)
Theorem repaint_geometry (w : World) (d : HTMLDivElement) (o : Point.t)
    (el : Element.t) :
  Handler.div (this w) = Some d →
  Handler.origin (this w) = Some o →
  Browser.elements (browser w) !! d = Some el →
  let cx := Handler.currentX (this w) - Graph.panX (graph w) in
  let cy := Handler.currentY (this w) - Graph.panY (graph w) in
  let x := Z.min (Point.x o) cx in
  let y := Z.min (Point.y o) cy in
  let width := Z.max (Point.x o) cx - x in
  let height := Z.max (Point.y o) cy - y in
  let w' := repaint w in
  Handler.x (this w') = Some x
  ∧ Handler.y (this w') = Some y
  ∧ Handler.width (this w') = Some width
  ∧ Handler.height (this w') = Some height
  ∧ 0 ≤ width ∧ 0 ≤ height
  ∧ ∃ el', Browser.elements (browser w') !! d = Some el'
      ∧ Style.left (Element.style el') = Some x
      ∧ Style.top (Element.style el') = Some y
      ∧ Style.width (Element.style el') = Some (Z.max 1 width)
      ∧ Style.height (Element.style el') = Some (Z.max 1 height)
      ∧ 1 ≤ Z.max 1 width ∧ 1 ≤ Z.max 1 height
      ∧ (width = 0 → Style.width (Element.style el') = Some 1)
      ∧ (height = 0 → Style.height (Element.style el') = Some 1).
Proof.
  intros Hd Ho Hel cx cy x y width height w'.
  destruct (repaint_rect w d o Hd Ho) as (Hx & Hy & Hw & Hh).
  pose proof (repaint_element w d o Hd Ho) as Hp.
  rewrite Hel in Hp. simpl in Hp.
  split_and!; try assumption; try (subst width height x y; lia).
  eexists. split; [exact Hp|].
  unfold paint; simpl.
  split_and!; try reflexivity; try lia.
  - intros E. f_equal. lia.
  - intros E. f_equal. lia.
Qed.


(** ** Release *)

Lemma execute_frame e w :
  this (execute e w) = this w ∧ browser (execute e w) = browser w
  ∧ Graph.selectCalls (graph (execute e w)) =
    Graph.selectCalls (graph w) ++
      [(Rectangle.mk (Handler.x (this w)) (Handler.y (this w))
          (Handler.width (this w)) (Handler.height (this w)), e)].
Proof. open_world w; norm; split_and!; reflexivity. Qed.

Lemma mouseUp_active w e :
  isActive w = true →
  mouseUp e w = (execute (MouseEventEx.getEvent e) (reset w),
                 MouseEventEx.consume None e).
Proof. intros H. unfold mouseUp. by rewrite H. Qed.

Lemma mouseUp_inactive w e :
  isActive w = false → mouseUp e w = (reset w, e).
Proof. intros H. unfold mouseUp. by rewrite H. Qed.

Lemma isActive_repaint w : isActive (repaint w) = isActive w.
Proof.
  unfold isActive.
  destruct (repaint_frame w) as (_ & -> & _).
  destruct (Handler.div (this w)) as [d|] eqn:Hd; [|done].
  destruct (Handler.origin (this w)) as [o|] eqn:Ho.
  - rewrite (repaint_element w d o Hd Ho).
    by destruct (Browser.elements (browser w) !! d).
  - rewrite repaint_idle; [done | by right].
Qed.

(** C3. A release while the overlay exists and is not [display: none] adds
    exactly one call of [selectCellsInRegion], with the rectangle the
    handler holds (the one the last repaint stored: after a repaint with
    overlay and origin set it is the envelope of origin and panned current
    position) and with the platform event of the release; the release event
    is consumed and the handler is Idle, as after [reset]. A release in any
    other state is just [reset]: no call, event untouched. *)
Theorem release_commits_once (w : World) (e : MouseEventEx.t) :
  (isActive w = true →
   let w' := fst (mouseUp e w) in
   let e' := snd (mouseUp e w) in
   Graph.selectCalls (graph w') =
     Graph.selectCalls (graph w) ++
       [(Rectangle.mk (Handler.x (this w)) (Handler.y (this w))
           (Handler.width (this w)) (Handler.height (this w)),
         MouseEventEx.getEvent e)]
   ∧ MouseEventEx.isConsumed e' = true
   ∧ this w' = this (reset w)
   ∧ browser w' = browser (reset w)
   ∧ dragState w' = Idle
   ∧ Handler.origin (this w') = None
   ∧ Handler.div (this w') = None)
  ∧ (isActive w = false →
     mouseUp e w = (reset w, e)
     ∧ Graph.selectCalls (graph (fst (mouseUp e w))) =
       Graph.selectCalls (graph w)
     ∧ dragState (fst (mouseUp e w)) = Idle)
  ∧ (∀ d o, Handler.div (this w) = Some d →
            Handler.origin (this w) = Some o →
            isActive w = true →
       let cx := Handler.currentX (this w) - Graph.panX (graph w) in
       let cy := Handler.currentY (this w) - Graph.panY (graph w) in
       Graph.selectCalls (graph (fst (mouseUp e (repaint w)))) =
         Graph.selectCalls (graph w) ++
           [(Rectangle.mk
               (Some (Z.min (Point.x o) cx))
               (Some (Z.min (Point.y o) cy))
               (Some (Z.max (Point.x o) cx - Z.min (Point.x o) cx))
               (Some (Z.max (Point.y o) cy - Z.min (Point.y o) cy)),
             MouseEventEx.getEvent e)]).
Proof.
  assert (Hact : ∀ v, isActive v = true →
            Graph.selectCalls (graph (fst (mouseUp e v))) =
              Graph.selectCalls (graph v) ++
                [(Rectangle.mk (Handler.x (this v)) (Handler.y (this v))
                    (Handler.width (this v)) (Handler.height (this v)),
                  MouseEventEx.getEvent e)]).
  { intros v Hv. rewrite (mouseUp_active v e Hv). cbn [fst snd].
    destruct (execute_frame (MouseEventEx.getEvent e) (reset v))
      as (_ & _ & ->).
    by rewrite reset_selectCalls, reset_this. }
  split_and!.
  - intros H w' e'. subst w' e'. split; [by apply Hact|].
    rewrite (mouseUp_active w e H). cbn [fst snd].
    destruct (execute_frame (MouseEventEx.getEvent e) (reset w))
      as (Ht & Hb & _).
    unfold dragState. rewrite Ht, Hb, reset_this. done.
  - intros H. rewrite (mouseUp_inactive w e H). cbn [fst snd].
    split_and!; [done | apply reset_selectCalls |].
    unfold dragState. by rewrite reset_this.
  - intros d o Hd Ho H cx cy.
    rewrite Hact by (by rewrite isActive_repaint).
    destruct (repaint_rect w d o Hd Ho) as (-> & -> & -> & ->).
    destruct (repaint_frame w) as (_ & _ & _ & _ & _ & _ & _ & _ & _ & ->).
    done.
Qed.

(** ** Pointer-down *)

Lemma start_this x y w :
  this (start x y w) =
  Handler.mk (Handler.enabled (this w)) (Handler.fadeOut (this w))
    (Handler.div (this w)) (Handler.sharedDiv (this w))
    (Some (Browser.nextListener (browser w)))
    (Some (S (Browser.nextListener (browser w))))
    (Some (Point.mk x y))
    (Handler.currentX (this w)) (Handler.currentY (this w))
    (Handler.x (this w)) (Handler.y (this w))
    (Handler.width (this w)) (Handler.height (this w)).
Proof.
  destruct w as [[] [] [[] ? ? ? ? ? ?]]; norm; reflexivity.
Qed.

Lemma start_frame x y w :
  graph (start x y w) = graph w
  ∧ Browser.elements (browser (start x y w)) = Browser.elements (browser w)
  ∧ Browser.timers (browser (start x y w)) = Browser.timers (browser w).
Proof.
  destruct w as [[] [] [[] ? ? ? ? ? ?]]; norm; split_and!; reflexivity.
Qed.

Lemma prepare_eq e w :
  prepare e w =
  (start (Point.x (getPosition e w)) (Point.y (getPosition e w)) w,
   MouseEventEx.consume (Some false) e).
Proof. reflexivity. Qed.

Lemma getPosition_eta e w :
  Point.mk (Point.x (getPosition e w)) (Point.y (getPosition e w)) =
  getPosition e w.
Proof. reflexivity. Qed.

Lemma mouseDown_accepted e w :
  isValid e w && negb (isOnCell e) && negb (isMultiTouchEvent e) = true →
  mouseDown e w = prepare e w.
Proof. intros H. unfold mouseDown. by rewrite H. Qed.

Lemma onMouseEvent_forced e w :
  isForceRubberbandEvent e = true →
  onMouseEvent "mouseDown" e w = prepare e w.
Proof.
  intros H. unfold onMouseEvent.
  by rewrite H, (bool_decide_eq_true_2 _ eq_refl).
Qed.

(** C9. An accepted pointer-down, on the normal path (handler valid, not on
    a cell, not multi-touch) or on the forced one (Alt held, through the
    [mouseEvent] subscription), ends in [e.consume(false)]: the event is
    flagged consumed but its platform event is handed back untouched, so
    [preventDefault] was not called on it and its default handling is not
    suppressed by the handler. *)
Theorem pointer_down_keeps_default (w : World) (e : MouseEventEx.t) :
  (isValid e w && negb (isOnCell e) && negb (isMultiTouchEvent e) = true →
   let e' := snd (mouseDown e w) in
   e' = MouseEventEx.consume (Some false) e
   ∧ MouseEventEx.getEvent e' = MouseEventEx.getEvent e
   ∧ MouseEvent.defaultPrevented (MouseEventEx.getEvent e') =
     MouseEvent.defaultPrevented (MouseEventEx.getEvent e)
   ∧ is_Some (Handler.origin (this (fst (mouseDown e w)))))
  ∧ (isForceRubberbandEvent e = true →
     let e' := snd (onMouseEvent "mouseDown" e w) in
     e' = MouseEventEx.consume (Some false) e
     ∧ MouseEventEx.getEvent e' = MouseEventEx.getEvent e
     ∧ MouseEvent.defaultPrevented (MouseEventEx.getEvent e') =
       MouseEvent.defaultPrevented (MouseEventEx.getEvent e)
     ∧ is_Some (Handler.origin (this (fst (onMouseEvent "mouseDown" e w))))).
Proof.
  split.
  - intros H e'. subst e'.
    rewrite (mouseDown_accepted e w H), prepare_eq. cbn [fst snd].
    rewrite start_this. cbn [Handler.origin]. split_and!; eauto.
  - intros H e'. subst e'.
    rewrite (onMouseEvent_forced e w H), prepare_eq. cbn [fst snd].
    rewrite start_this. cbn [Handler.origin]. split_and!; eauto.
Qed.

Lemma forced_prepare w e :
  Graph.onMouseEvent (graph w) = true →
  isForceRubberbandEvent e = true →
  step w (Notify "mouseDown" e) = fst (prepare e w).
Proof.
  intros Hs Ha. unfold step. by rewrite Hs, (onMouseEvent_forced e w Ha).
Qed.

Lemma constructor_subscribes g b :
  Graph.onMouseEvent (graph (constructor g b)) = true
  ∧ Graph.onPan (graph (constructor g b)) = true
  ∧ Graph.onGesture (graph (constructor g b)) = true.
Proof. destruct g, b; split_and!; reflexivity. Qed.

(** Only [dispose] ends the subscriptions. *)
Lemma subscribed_step w op :
  op ≠ Dispose →
  Graph.onMouseEvent (graph (step w op)) = Graph.onMouseEvent (graph w).
Proof.
  destruct op as [n [[] ? ?]|[[] ? ?]|[[] ? ?]|[[] ? ?]| | | | | | | | ];
    try done; intros _.
  all: open_world w; norm; repeat case_match; simplify_eq; norm; done.
Qed.

Lemma subscribed_run ops w :
  Forall (λ op, op ≠ Dispose) ops →
  Graph.onMouseEvent (graph (run ops w)) = Graph.onMouseEvent (graph w).
Proof.
  intros Hops. revert w.
  induction Hops as [|op ops Hop _ IH]; intros w; [done|].
  unfold run in *. cbn [foldl]. by rewrite IH, subscribed_step.
Qed.

(** C10. The constructor subscribes the handler to [mouseEvent], and the
    subscription lasts until [dispose]. In every world reached before that,
    a [mouseDown] notification whose event has Alt held arms a drag: the
    origin is the event's position, the move and up closures are made, and
    the state is no longer Idle (Armed, when there was no overlay). Nothing
    is assumed of the handler being enabled, nor of the event being
    consumed, on a cell or multi-touch. *)
Theorem force_rubberband_ignores_gates (g : Graph.t) (b : Browser.t)
    (ops : list Op) (e : MouseEventEx.t) :
  Forall (λ op, op ≠ Dispose) ops →
  isForceRubberbandEvent e = true →
  let w := run ops (constructor g b) in
  let w' := step w (Notify "mouseDown" e) in
  Graph.onMouseEvent (graph w) = true
  ∧ w' = fst (prepare e w)
  ∧ Handler.origin (this w') = Some (getPosition e w)
  ∧ is_Some (Handler.onMouseMove (this w'))
  ∧ is_Some (Handler.onMouseUp (this w'))
  ∧ dragState w' ≠ Idle
  ∧ (Handler.div (this w) = None → dragState w' = Armed).
Proof.
  intros Hops Ha w w'.
  assert (Hs : Graph.onMouseEvent (graph w) = true).
  { subst w. rewrite (subscribed_run ops _ Hops).
    apply constructor_subscribes. }
  subst w'. rewrite (forced_prepare w e Hs Ha), prepare_eq. cbn [fst snd].
  unfold dragState. rewrite start_this.
  cbn [Handler.origin Handler.div Handler.onMouseMove Handler.onMouseUp].
  split_and!; eauto.
  - by destruct (Handler.div (this w)).
  - by intros ->.
Qed.

(** ** A click *)

Lemma mouseMove_within w o e :
  Handler.origin (this w) = Some o →
  Handler.div (this w) = None →
  withinTolerance w o e →
  mouseMove e w = (w, e).
Proof.
  intros Ho Hd [Hx Hy]. unfold mouseMove. rewrite Ho, Hd.
  destruct (negb (MouseEventEx.isConsumed e)); [|done].
  rewrite bool_decide_eq_false_2 by (by intros []).
  rewrite !Z.gtb_ltb.
  rewrite (proj2 (Z.ltb_ge _ _) Hx), (proj2 (Z.ltb_ge _ _) Hy). done.
Qed.

Lemma pointerDown_prepare w e w1 :
  pointerDown w e w1 → w1 = fst (prepare e w).
Proof.
  intros [H | Hs H].
  - unfold step. by rewrite (mouseDown_accepted e w H).
  - by apply forced_prepare.
Qed.

Lemma moves_within w o moves :
  Handler.origin (this w) = Some o →
  Handler.div (this w) = None →
  Forall (withinTolerance w o) moves →
  run (map Move moves) w = w.
Proof.
  intros Ho Hd. induction 1 as [|e moves He _ IH]; [done|].
  unfold run in *. simpl. by rewrite (mouseMove_within w o e Ho Hd He).
Qed.

(** C1 (amended). A drag session that starts with an accepted pointer-down
    while no overlay exists, and whose moves all stay within the tolerance of the
    origin on both axes: every move leaves the world as the pointer-down
    left it (no element is created, nothing is appended to the container,
    no overlay reference is set), and the release calls
    [selectCellsInRegion] not at all, does not consume the release event,
    and ends Idle, exactly as a release straight after the pointer-down. *)
Theorem click_is_not_a_drag (w w1 : World) (down up : MouseEventEx.t)
    (moves : list MouseEventEx.t) :
  Handler.div (this w) = None →
  pointerDown w down w1 →
  Forall (withinTolerance w1 (getPosition down w)) moves →
  (∀ k, let wk := run (map Move (take k moves)) w1 in
        wk = w1
        ∧ Handler.div (this wk) = None
        ∧ Browser.elements (browser wk) = Browser.elements (browser w)
        ∧ Graph.children (graph wk) = Graph.children (graph w))
  ∧ let w2 := run (map Move moves) w1 in
    let w3 := fst (mouseUp up w2) in
    mouseUp up w2 = mouseUp up w1
    ∧ snd (mouseUp up w2) = up
    ∧ Graph.selectCalls (graph w3) = Graph.selectCalls (graph w)
    ∧ dom (Browser.elements (browser w3)) =
      dom (Browser.elements (browser w))
    ∧ Graph.children (graph w3) = Graph.children (graph w)
    ∧ dragState w3 = Idle.
Proof.
  intros Hd Hdown Hmoves.
  pose proof (pointerDown_prepare w down w1 Hdown) as E.
  rewrite prepare_eq in E. cbn [fst] in E.
  assert (Ho1 : Handler.origin (this w1) = Some (getPosition down w))
    by (by rewrite E, start_this).
  assert (Hd1 : Handler.div (this w1) = None)
    by (by rewrite E, start_this).
  destruct (start_frame (Point.x (getPosition down w))
              (Point.y (getPosition down w)) w) as (Hg & He & _).
  rewrite <- E in Hg, He.
  split.
  - intros k wk. subst wk.
    rewrite (moves_within w1 _ _ Ho1 Hd1) by (by apply Forall_take).
    by rewrite Hg, He.
  - intros w2 w3. subst w3 w2.
    rewrite (moves_within w1 _ _ Ho1 Hd1 Hmoves).
    assert (Hi : isActive w1 = false) by (unfold isActive; by rewrite Hd1).
    rewrite (mouseUp_inactive w1 up Hi). cbn [fst snd].
    rewrite reset_selectCalls, reset_elements_dom, Hg, He.
    split_and!; try done.
    by rewrite (reset_graph_idle w1 Hd1), Hg.
Qed.

(** ** The invariant *)

(** Splits [wf] of an opened world into its five facts, fields computed. *)
Ltac wf_cases :=
  intros [H1 H2 H3 H4 H5]; revert H1 H2 H3 H4 H5; norm; intros;
  repeat case_match; simplify_eq;
  constructor; norm;
  rewrite ?dom_alter_L, ?dom_insert_L;
  try done; try congruence; try (intros _; eauto; done);
  try (intros ? [= <-]; eauto; set_solver).

Lemma wf_constructor g b : wf (constructor g b).
Proof.
  destruct g as [[]], b. constructor; unfold constructor; norm;
    try done; by intros [? [=]].
Qed.

Lemma wf_reset w : wf w → wf (reset w).
Proof. open_world w; wf_cases; by intros [? [=]]. Qed.

(** Every operation keeps the invariant. *)
Lemma wf_step w op : wf w → wf (step w op).
Proof.
  destruct op as [n [[] ? ?]|[[] ? ?]|[[] ? ?]|[[] ? ?]| | | | | | | | ];
    open_world w; wf_cases.
Qed.

Lemma wf_run ops w : wf w → wf (run ops w).
Proof.
  revert w. induction ops as [|op ops IH]; intros w Hw; [done|].
  apply IH, wf_step, Hw.
Qed.


Lemma run_snoc ops op w : run (ops ++ [op]) w = step (run ops w) op.
Proof. unfold run. by rewrite foldl_app. Qed.


(** C4. After any sequence of operations on a constructed handler (notified
    or direct pointer-down, move, release, pan, gesture, reset, dispose,
    enable, disable, config, a fade-out timer firing) the overlay reference
    is set exactly in state Dragging and the origin exactly in states Armed
    and Dragging; so an overlay reference implies an origin; and [reset]
    clears both together. *)
Theorem state_invariant (g : Graph.t) (b : Browser.t) (ops : list Op) :
  let w := run ops (constructor g b) in
  (is_Some (Handler.div (this w)) ↔ dragState w = Dragging)
  ∧ (is_Some (Handler.origin (this w)) ↔
     dragState w = Armed ∨ dragState w = Dragging)
  ∧ (is_Some (Handler.div (this w)) → is_Some (Handler.origin (this w)))
  ∧ Handler.div (this (reset w)) = None
  ∧ Handler.origin (this (reset w)) = None
  ∧ dragState (reset w) = Idle.
Proof.
  intros w.
  pose proof (wf_origin w (wf_run ops _ (wf_constructor g b))) as H.
  unfold dragState. rewrite reset_this.
  cbn [Handler.div Handler.origin].
  destruct (Handler.div (this w)) as [d|], (Handler.origin (this w)) as [o|];
    try (by destruct H as [? [=]]; eauto).
  all: split_and!; try done; split; try done; eauto.
  all: try (by intros [? [=]]); try (by intros [|]).
Qed.

(** ** The overlay element *)

Lemma createShape_shared w d :
  Handler.sharedDiv (this w) = Some d →
  fst (createShape w) = d
  ∧ Browser.elements (browser (snd (createShape w))) =
    Browser.elements (browser w).
Proof. open_world w; norm; intros [= <-]; done. Qed.

Lemma createShape_fresh w :
  Handler.sharedDiv (this w) = None →
(fst (createShape w) ∉ dom (Browser.elements (browser w)))
  ∧ Browser.elements (browser (snd (createShape w))) =
    (<[fst (createShape w) := Element.blank]>
       (Browser.elements (browser w))).
Proof. open_world w; norm; intros [=]; split; try done; apply is_fresh. Qed.


Lemma createShape_appended w :
  fst (createShape w) ∈ Graph.children (graph (snd (createShape w))).
Proof. open_world w; norm; set_solver. Qed.

Lemma exceedsTolerance_test w o e :
  ¬ withinTolerance w o e →
  let p := getPosition e w in
  (Z.abs (Point.x o - Point.x p) >? Graph.tolerance (graph w))
  || (Z.abs (Point.y o - Point.y p) >? Graph.tolerance (graph w)) = true.
Proof.
  intros H p. unfold withinTolerance in H. fold p in H.
  rewrite !Z.gtb_ltb. apply orb_true_iff. rewrite !Z.ltb_lt. lia.
Qed.

(** The move that exceeds the tolerance takes its overlay from
    [createShape]. *)
Lemma mouseMove_exceeds w e :
  exceedsTolerance w e →
  let w' := fst (mouseMove e w) in
  Handler.div (this w') = Some (fst (createShape w))
  ∧ Handler.sharedDiv (this w') =
    Handler.sharedDiv (this (snd (createShape w)))
  ∧ dom (Browser.elements (browser w')) =
    dom (Browser.elements (browser (snd (createShape w)))).
Proof.
  intros (Hc & Hd & o & Ho & Htol) w'. subst w'.
  apply exceedsTolerance_test in Htol. revert Hc Hd Ho Htol.
  destruct e as [[] ? ?]. open_world w; norm; intros -> [=] [= <-] Htol.
  all: cbn [negb]; rewrite bool_decide_eq_false_2 by (by intros []).
  all: cbn [orb]; rewrite Htol; norm.
  all: split_and!; try done; by rewrite dom_alter_L.
Qed.





(** ** The scenarios of the specification, run *)

Example scenario_drag :
  let w := run [Up (mouseAt 3 50 40)] (draggingWorld false) in
  Graph.selectCalls (graph w) =
    [(Rectangle.mk (Some 10) (Some 10) (Some 40) (Some 30),
      MouseEventEx.getEvent (mouseAt 3 50 40))]
  ∧ dragState w = Idle
  ∧ Graph.children (graph (draggingWorld false)) = [0%nat]
  ∧ Graph.children (graph w) = [].
Proof. vm_compute. done. Qed.

Example scenario_click :
  let w := run [Down (mouseAt 1 10 10); Move (mouseAt 2 11 11);
                Up (mouseAt 3 11 11)] (sampleWorld false) in
  Graph.selectCalls (graph w) = []
  ∧ Browser.elements (browser w) = ∅
  ∧ dragState w = Idle.
Proof. vm_compute. done. Qed.

Example scenario_fade :
  let w := run [Up (mouseAt 3 50 40); Down (mouseAt 4 10 10);
                Move (mouseAt 5 50 40)] (draggingWorld true) in
  Handler.div (this (draggingWorld true)) = Some 0%nat
  ∧ Handler.div (this w) = Some 1%nat
  ∧ Graph.children (graph w) = [0%nat; 1%nat]
  ∧ Browser.timers (browser w) = [0%nat]
  ∧ Graph.children (graph (step w Timeout)) = [1%nat]
  ∧ Handler.div (this (step w Timeout)) = Some 1%nat.
Proof. vm_compute. done. Qed.

(** A pointer-down accepted while the overlay is shown re-arms the drag with
    a new origin and keeps the overlay: the next move repaints whatever its
    distance, and the release selects. *)
Example scenario_rearm :
  let w := run [Down (mouseAt 3 50 40); Move (mouseAt 4 51 41);
                Up (mouseAt 5 51 41)] (draggingWorld false) in
  Graph.selectCalls (graph w) =
    [(Rectangle.mk (Some 50) (Some 40) (Some 1) (Some 1),
      MouseEventEx.getEvent (mouseAt 5 51 41))]
  ∧ dom (Browser.elements (browser w)) =
    dom (Browser.elements (browser (draggingWorld false))).
Proof. vm_compute. done. Qed.

(** ** Where two sentences of the specification stop holding

    Both come from a pointer-down that is accepted while a drag is already
    in progress: [start] has no guard against it. *)

(** A pointer-down accepted while the overlay is shown, then a move within
    tolerance of the new origin, then the release: the release selects. *)
Lemma click_claim_fails_on_rearm :
  ¬ (∀ (w w1 : World) (down up : MouseEventEx.t)
       (moves : list MouseEventEx.t),
       reachable w →
       pointerDown w down w1 →
       Forall (withinTolerance w1 (getPosition down w)) moves →
       Graph.selectCalls
         (graph (fst (mouseUp up (run (map Move moves) w1)))) =
       Graph.selectCalls (graph w)).
Proof.
  intros H.
  specialize (H (draggingWorld false)
                (step (draggingWorld false) (Down (mouseAt 3 50 40)))
                (mouseAt 3 50 40) (mouseAt 5 51 41) [mouseAt 4 51 41]).
  assert (Hsel : Graph.selectCalls
            (graph (fst (mouseUp (mouseAt 5 51 41)
               (run (map Move [mouseAt 4 51 41])
                  (step (draggingWorld false) (Down (mouseAt 3 50 40)))))))
          = Graph.selectCalls (graph (draggingWorld false))).
  { apply H.
    - exists (sampleGraph false), sampleBrowser,
        [Down (mouseAt 1 10 10); Move (mouseAt 2 50 40)]. reflexivity.
    - apply pointerDown_normal. reflexivity.
    - constructor; [|constructor]. split; by vm_compute. }
  vm_compute in Hsel. discriminate Hsel.
Qed.

(** On Firefox, from a document without listeners: a pointer-down re-armed
    by a second one, then the gesture. The closures of the first
    pointer-down are still listeners of [document]. *)
Lemma gesture_leaves_rearmed_listeners :
  ¬ (∀ (g : Graph.t) (b : Browser.t) (ops : list Op),
       Browser.mousemove b = [] →
       Browser.mouseup b = [] →
       let w := run ops (constructor g b) in
       is_Some (Handler.origin (this w)) →
       Browser.mousemove (browser (onGesture w)) = []
       ∧ Browser.mouseup (browser (onGesture w)) = []).
Proof.
  intros H.
  destruct (H (sampleGraph false) firefoxBrowser
              [Down (mouseAt 1 10 10); Down (mouseAt 2 20 20)]
              eq_refl eq_refl) as [Hm _].
  - exists (Point.mk 20 20). reflexivity.
  - vm_compute in Hm. discriminate Hm.
Qed.

Example scenario_rearm_firefox :
  Browser.mousemove (browser rearmedFirefoxWorld) = [0%nat; 2%nat]
  ∧ Browser.mouseup (browser rearmedFirefoxWorld) = [1%nat; 3%nat]
  ∧ Browser.mousemove (browser (onGesture rearmedFirefoxWorld)) = [0%nat]
  ∧ Browser.mouseup (browser (onGesture rearmedFirefoxWorld)) = [1%nat].
Proof. vm_compute. done. Qed.

(** ** The theorems at the sample worlds *)

Lemma click_is_not_a_drag_witness :
  Graph.selectCalls
    (graph (fst (mouseUp (mouseAt 3 11 11)
                   (run (map Move [mouseAt 2 11 11]) (armedWorld false))))) =
  Graph.selectCalls (graph (sampleWorld false)).
Proof.
  refine (proj1 (proj2 (proj2 (proj2
    (click_is_not_a_drag (sampleWorld false) (armedWorld false)
       (mouseAt 1 10 10) (mouseAt 3 11 11) [mouseAt 2 11 11] _ _ _))))).
  - reflexivity.
  - apply pointerDown_normal. reflexivity.
  - constructor; [|constructor]. split; by vm_compute.
Defined.

Lemma repaint_geometry_witness :
  Handler.width (this (repaint (draggingWorld false))) = Some (50 - 10)
  ∧ Handler.height (this (repaint (draggingWorld false))) = Some (40 - 10).
Proof.
  assert (Hel : Browser.elements (browser (draggingWorld false)) !! 0%nat =
                Some (paint "x6" sampleStyle 10 10 40 30 Element.blank))
    by (by vm_compute).
  destruct (repaint_geometry (draggingWorld false) 0%nat (Point.mk 10 10) _
              eq_refl eq_refl Hel) as (_ & _ & Hw & Hh & _).
  split; [exact Hw | exact Hh].
Defined.

Lemma release_commits_once_witness :
  Graph.selectCalls
    (graph (fst (mouseUp (mouseAt 3 50 40) (draggingWorld false)))) =
  [(Rectangle.mk (Some 10) (Some 10) (Some 40) (Some 30),
    MouseEventEx.getEvent (mouseAt 3 50 40))]
  ∧ mouseUp (mouseAt 3 11 11) (armedWorld false) =
    (reset (armedWorld false), mouseAt 3 11 11).
Proof.
  destruct (release_commits_once (draggingWorld false) (mouseAt 3 50 40))
    as (Ha & _ & _).
  destruct (release_commits_once (armedWorld false) (mouseAt 3 11 11))
    as (_ & Hi & _).
  split.
  - exact (proj1 (Ha eq_refl)).
  - exact (proj1 (Hi eq_refl)).
Defined.

Lemma state_invariant_witness :
  is_Some (Handler.origin (this (draggingWorld false))).
Proof.
  refine (proj1 (proj2 (proj2
    (state_invariant (sampleGraph false) sampleBrowser
       [Down (mouseAt 1 10 10); Move (mouseAt 2 50 40)]))) _).
  exists 0%nat. reflexivity.
Defined.


Lemma gesture_cancels_drag_witness :
  dragState (onGesture (draggingWorld true)) = Idle
  ∧ onGesture (sampleWorld true) = sampleWorld true.
Proof.
  split.
  - refine (proj1 (proj2
      (proj1 (gesture_cancels_drag (draggingWorld true)) _))).
    exists (Point.mk 10 10). reflexivity.
  - exact (proj2 (gesture_cancels_drag (sampleWorld true)) eq_refl).
Defined.


Lemma pointer_down_keeps_default_witness :
  MouseEvent.defaultPrevented
    (MouseEventEx.getEvent
       (snd (mouseDown (mouseAt 1 10 10) (sampleWorld false)))) = false
  ∧ MouseEvent.defaultPrevented
      (MouseEventEx.getEvent
         (snd (onMouseEvent "mouseDown" forcedEvent (sampleWorld false)))) =
    false.
Proof.
  destruct (pointer_down_keeps_default (sampleWorld false) (mouseAt 1 10 10))
    as (Hn & _).
  destruct (pointer_down_keeps_default (sampleWorld false) forcedEvent)
    as (_ & Hf).
  split.
  - exact (proj1 (proj2 (proj2 (Hn eq_refl)))).
  - exact (proj1 (proj2 (proj2 (Hf eq_refl)))).
Defined.

Lemma force_rubberband_ignores_gates_witness :
  Handler.origin
    (this (step (run [Disable] (sampleWorld false))
             (Notify "mouseDown" forcedEvent))) =
  Some (getPosition forcedEvent (run [Disable] (sampleWorld false))).
Proof.
  refine (proj1 (proj2 (proj2
    (force_rubberband_ignores_gates (sampleGraph false) sampleBrowser
       [Disable] forcedEvent _ eq_refl)))).
  constructor; [discriminate | constructor].
Defined.

(** * Further properties *)

(** ** Positions *)

Lemma getPosition_start e x y w :
  getPosition e (start x y w) = getPosition e w.
Proof.
  unfold getPosition. by destruct (start_frame x y w) as (-> & _).
Qed.

(** ** Moves *)

Lemma mouseMove_dragging w d o e :
  Handler.div (this w) = Some d →
  Handler.origin (this w) = Some o →
  MouseEventEx.isConsumed e = false →
  mouseMove e w =
    (update (Point.x (getPosition e w)) (Point.y (getPosition e w))
       (with_browser clearSelection w),
     MouseEventEx.consume None e).
Proof.
  intros Hd Ho Hc. unfold mouseMove. rewrite Hc, Ho, Hd. cbn [negb].
  by rewrite bool_decide_eq_true_2.
Qed.

Lemma update_this x y w :
  Handler.currentX (this (update x y w)) = x
  ∧ Handler.currentY (this (update x y w)) = y
  ∧ Handler.div (this (update x y w)) = Handler.div (this w)
  ∧ Handler.origin (this (update x y w)) = Handler.origin (this w)
  ∧ Handler.sharedDiv (this (update x y w)) = Handler.sharedDiv (this w)
  ∧ graph (update x y w) = graph w
  ∧ dom (Browser.elements (browser (update x y w))) =
    dom (Browser.elements (browser w))
  ∧ Browser.timers (browser (update x y w)) = Browser.timers (browser w)
  ∧ Browser.selectionCleared (browser (update x y w)) =
    Browser.selectionCleared (browser w).
Proof.
  open_world w; norm; rewrite ?dom_alter_L; split_and!; reflexivity.
Qed.

Lemma update_rect x y w d o :
  Handler.div (this w) = Some d →
  Handler.origin (this w) = Some o →
  rectangle (update x y w) =
    envelope o (x - Graph.panX (graph w)) (y - Graph.panY (graph w)).
Proof.
  unfold rectangle, envelope.
  open_world w; norm; intros [= <-] [= <-]; reflexivity.
Qed.

(** X2. Once the overlay exists, every move that is not consumed
    repaints, however small: the event is consumed, overlay and origin stay,
    the position of the event becomes the current position, the rectangle
    is the envelope of origin and that position less the pan offset, the
    text selection is cleared once, and neither the graph nor the set of
    elements changes. *)
Theorem dragging_move_repaints (w : World) (d : HTMLDivElement) (o : Point.t)
    (e : MouseEventEx.t) :
  Handler.div (this w) = Some d →
  Handler.origin (this w) = Some o →
  MouseEventEx.isConsumed e = false →
  let w' := fst (mouseMove e w) in
  let p := getPosition e w in
  snd (mouseMove e w) = MouseEventEx.consume None e
  ∧ Handler.div (this w') = Some d
  ∧ Handler.origin (this w') = Some o
  ∧ Handler.currentX (this w') = Point.x p
  ∧ Handler.currentY (this w') = Point.y p
  ∧ rectangle w' =
      envelope o (Point.x p - Graph.panX (graph w))
                 (Point.y p - Graph.panY (graph w))
  ∧ graph w' = graph w
  ∧ dom (Browser.elements (browser w')) = dom (Browser.elements (browser w))
  ∧ Browser.selectionCleared (browser w') =
    S (Browser.selectionCleared (browser w)).
Proof.
  intros Hd Ho Hc w' p. subst w'.
  rewrite (mouseMove_dragging w d o e Hd Ho Hc). cbn [fst snd]. fold p.
  set (w0 := with_browser clearSelection w).
  assert (Hd0 : Handler.div (this w0) = Some d) by done.
  assert (Ho0 : Handler.origin (this w0) = Some o) by done.
  destruct (update_this (Point.x p) (Point.y p) w0)
    as (-> & -> & -> & -> & _ & -> & -> & _ & ->).
  rewrite (update_rect _ _ w0 d o Hd0 Ho0).
  split_and!; done.
Qed.

Lemma createShape_children w :
  Graph.children (graph (snd (createShape w))) =
  filter (λ c, c ≠ fst (createShape w)) (Graph.children (graph w))
    ++ [fst (createShape w)].
Proof. open_world w; norm; reflexivity. Qed.

Lemma mouseMove_exceeds_eq w e :
  exceedsTolerance w e →
  mouseMove e w =
    (update (Point.x (getPosition e w)) (Point.y (getPosition e w))
       (with_browser clearSelection
          (with_this (Handler.set_div (Some (fst (createShape w))))
             (snd (createShape w)))),
     MouseEventEx.consume None e).
Proof.
  intros (Hc & Hd & o & Ho & Htol).
  apply exceedsTolerance_test in Htol. cbv zeta in Htol.
  unfold mouseMove. rewrite Hc, Ho, Hd. cbn [negb].
  rewrite bool_decide_eq_false_2 by (by intros []). cbn [orb].
  rewrite Htol. by destruct (createShape w).
Qed.

Lemma createShape_frame w :
  Handler.origin (this (snd (createShape w))) = Handler.origin (this w)
  ∧ Handler.div (this (snd (createShape w))) = Handler.div (this w)
  ∧ Graph.panX (graph (snd (createShape w))) = Graph.panX (graph w)
  ∧ Graph.panY (graph (snd (createShape w))) = Graph.panY (graph w)
  ∧ Graph.selectCalls (graph (snd (createShape w))) =
    Graph.selectCalls (graph w)
  ∧ Browser.timers (browser (snd (createShape w))) =
    Browser.timers (browser w).
Proof. open_world w; norm; split_and!; reflexivity. Qed.

Lemma exceeding_move_state w o e :
  exceedsTolerance w e →
  Handler.origin (this w) = Some o →
  let w' := fst (mouseMove e w) in
  let p := getPosition e w in
  Handler.div (this w') = Some (fst (createShape w))
  ∧ Handler.origin (this w') = Some o
  ∧ rectangle w' =
      envelope o (Point.x p - Graph.panX (graph w))
                 (Point.y p - Graph.panY (graph w))
  ∧ Graph.selectCalls (graph w') = Graph.selectCalls (graph w)
  ∧ Graph.children (graph w') =
      filter (λ c, c ≠ fst (createShape w)) (Graph.children (graph w))
        ++ [fst (createShape w)].
Proof.
  intros He Ho w' p. subst w'.
  rewrite (mouseMove_exceeds_eq w e He). cbn [fst snd]. fold p.
  set (d := fst (createShape w)).
  set (w0 := with_browser clearSelection
               (with_this (Handler.set_div (Some d)) (snd (createShape w)))).
  destruct (createShape_frame w) as (Ho1 & _ & Hpx & Hpy & Hsel & _).
  assert (Hd0 : Handler.div (this w0) = Some d) by done.
  assert (Ho0 : Handler.origin (this w0) = Some o).
  { subst w0. cbn. by rewrite Ho1. }
  assert (Hg0 : graph w0 = graph (snd (createShape w))) by done.
  destruct (update_this (Point.x p) (Point.y p) w0)
    as (_ & _ & Hd' & Ho' & _ & Hg' & _).
  rewrite (update_rect _ _ w0 d o Hd0 Ho0), Hd', Ho', Hg', Hd0, Ho0, Hg0.
  rewrite Hpx, Hpy, Hsel, createShape_children. done.
Qed.

(** X3. The move that exceeds the tolerance appends the overlay to the
    container as its last child, present once (an earlier occurrence is
    moved, not duplicated); the state is Dragging, the event is consumed, the
    rectangle is the envelope of origin and event position less the pan
    offset, and nothing is selected yet. *)
Theorem exceeding_move_attaches_overlay (w : World) (o : Point.t)
    (e : MouseEventEx.t) :
  exceedsTolerance w e →
  Handler.origin (this w) = Some o →
  let w' := fst (mouseMove e w) in
  let p := getPosition e w in
  ∃ d, Handler.div (this w') = Some d
    ∧ Graph.children (graph w') =
        filter (λ c, c ≠ d) (Graph.children (graph w)) ++ [d]
    ∧ last (Graph.children (graph w')) = Some d
    ∧ (d ∉ filter (λ c, c ≠ d) (Graph.children (graph w)))
    ∧ dragState w' = Dragging
    ∧ snd (mouseMove e w) = MouseEventEx.consume None e
    ∧ rectangle w' =
        envelope o (Point.x p - Graph.panX (graph w))
                   (Point.y p - Graph.panY (graph w))
    ∧ Graph.selectCalls (graph w') = Graph.selectCalls (graph w).
Proof.
  intros He Ho w' p. subst w' p.
  destruct (exceeding_move_state w o e He Ho) as (Hd & Ho' & Hr & Hs & Hc).
  exists (fst (createShape w)). unfold dragState.
  rewrite Hd, Ho', Hr, Hs, Hc, (mouseMove_exceeds_eq w e He).
  split_and!; try done.
  - apply last_snoc.
  - apply not_elem_of_filter_ne.
Qed.

(** ** Overlay, container and timers *)

Lemma visible_alter f k m :
  (∀ el, Style.display (Element.style (f el)) =
         Style.display (Element.style el)) →
  visible m → visible (alter f k m).
Proof.
  intros Hf Hm d el. rewrite lookup_alter. case_decide; [|apply Hm].
  subst. destruct (m !! d) as [el0|] eqn:E; [|done].
  intros [= <-]. rewrite Hf. by apply (Hm d).
Qed.

Lemma visible_insert_blank k m :
  visible m → visible (<[k := Element.blank]> m).
Proof.
  intros Hm d el. rewrite lookup_insert. case_decide; [|apply Hm].
  by intros [= <-].
Qed.

(* [set_solver] clears hypotheses it has already used up. *)
#[local] Set Warnings "-clear-no-such-hyp".

Ltac live_cases :=
  intros [H1 H2 H3 H4 H5] [L1 L2 L3 L4];
  revert H1 H2 H3 H4 H5 L1 L2 L3 L4; norm; intros;
  repeat case_match; simplify_eq;
  constructor; norm;
  rewrite ?dom_alter_L, ?dom_insert_L;
  try done;
  try (repeat first [apply visible_alter; [done|]
                    | apply visible_insert_blank]; done);
  try (by specialize (H5 eq_refl));
  try (rewrite (L4 eq_refl) in L2, L3 |- * );
  try match goal with
      | |- context [fresh ?X] => pose proof (is_fresh X)
      end;
  try (intros; simplify_eq; set_solver).

Lemma live_timeout w : live w → live (timeout w).
Proof.
  intros [L1 L2 L3 L4]. revert L1 L2 L3 L4.
  open_world w; norm; intros; repeat case_match; simplify_eq;
    constructor; norm; try done.
  all: try (intros d Hd; apply L2; by right).
  all: try (intros d [= <-]; destruct (L3 _ eq_refl) as [Hc Hn]; split;
            [apply list_elem_of_filter; split; [|done];
             intros ->; apply Hn; left
            |intros Hl; apply Hn; by right]).
  all: by specialize (L4 eq_refl).
Qed.

Lemma live_step w op : wf w → live w → live (step w op).
Proof.
  destruct op as [n [[] ? ?]|[[] ? ?]|[[] ? ?]|[[] ? ?]| | | | | | | | ].
  12: by intros _; apply live_timeout.
  all: open_world w; live_cases.
Qed.

Lemma live_constructor g b : pristine b → live (constructor g b).
Proof.
  intros [Ht Hv]. revert Ht Hv. destruct g as [[]], b.
  unfold constructor; norm; intros -> Hv.
  constructor; norm; try done. intros d Hd. by apply elem_of_nil in Hd.
Qed.

Lemma live_run ops w : wf w → live w → live (run ops w).
Proof.
  revert w. induction ops as [|op ops IH]; intros w Hw Hl; [done|].
  apply IH; [by apply wf_step | by apply live_step].
Qed.

Lemma live_reachable g b ops :
  pristine b → live (run ops (constructor g b)).
Proof.
  intros Hb. apply live_run; [apply wf_constructor | by apply live_constructor].
Qed.

Lemma isActive_live w :
  wf w → live w → isActive w = true ↔ is_Some (Handler.div (this w)).
Proof.
  intros Hw Hl. unfold isActive.
  destruct (Handler.div (this w)) as [d|] eqn:Hd.
  - split; [eauto|intros _].
    destruct (Browser.elements (browser w) !! d) as [el|] eqn:He; [|done].
    apply bool_decide_eq_true_2. by apply (live_visible w Hl d).
  - split; [done | by intros [? [=]]].
Qed.

Lemma timeout_this w : this (timeout w) = this w.
Proof. unfold timeout. by destruct (Browser.timers (browser w)). Qed.

(** X5. In every world reached from a pristine browser, the overlay the
    handler holds is a child of the container and is not awaited by any
    fade-out timer; a timer of an earlier drag that fires leaves it attached
    and held; and the handler is active. *)
Theorem overlay_stays_attached (g : Graph.t) (b : Browser.t) (ops : list Op)
    (d : HTMLDivElement) :
  pristine b →
  let w := run ops (constructor g b) in
  Handler.div (this w) = Some d →
  d ∈ Graph.children (graph w)
  ∧ (d ∉ Browser.timers (browser w))
  ∧ (d ∈ Graph.children (graph (step w Timeout)))
  ∧ Handler.div (this (step w Timeout)) = Some d
  ∧ isActive w = true.
Proof.
  intros Hb w Hd.
  pose proof (live_reachable g b ops Hb) as Hl. fold w in Hl.
  pose proof (wf_run ops _ (wf_constructor g b)) as Hw. fold w in Hw.
  pose proof (live_step w Timeout Hw Hl) as Hl'.
  assert (Hd' : Handler.div (this (step w Timeout)) = Some d).
  { unfold step. by rewrite timeout_this. }
  destruct (live_div w Hl d Hd) as [Hc Ht].
  destruct (live_div _ Hl' d Hd') as [Hc' _].
  split_and!; try done.
  apply isActive_live; eauto.
Qed.

(** ** What operations leave alone *)

Ltac each_op op :=
  destruct op as [? [[] ? ?]|[[] ? ?]|[[] ? ?]|[[] ? ?]| | | | | | | | ].

(** No operation changes [options.fadeOut]. *)
Lemma options_fadeOut_step w op :
  Graph.fadeOut (Graph.options (graph (step w op))) =
  Graph.fadeOut (Graph.options (graph w)).
Proof.
  each_op op; open_world w; norm; repeat case_match; simplify_eq; norm;
    done.
Qed.

Lemma options_fadeOut_run ops w :
  Graph.fadeOut (Graph.options (graph (run ops w))) =
  Graph.fadeOut (Graph.options (graph w)).
Proof.
  revert w. induction ops as [|op ops IH]; intros w; [done|].
  unfold run in *. cbn [foldl]. by rewrite IH, options_fadeOut_step.
Qed.

Lemma constructor_options g b :
  Graph.options (graph (constructor g b)) = Graph.options g.
Proof. by destruct g as [[]], b. Qed.

(** X6. A handler constructed with fade-out off never schedules a timer:
    in every world it reaches from a pristine browser fade-out is still off,
    no timer is pending, a [Timeout] changes nothing, and [reset] detaches
    the overlay at once. *)
Theorem no_timer_without_fadeOut (g : Graph.t) (b : Browser.t)
    (ops : list Op) :
  pristine b →
  Graph.fadeOut (Graph.options g) = false →
  let w := run ops (constructor g b) in
  Handler.fadeOut (this w) = false
  ∧ Browser.timers (browser w) = []
  ∧ step w Timeout = w
  ∧ ∀ d, Handler.div (this w) = Some d →
         d ∉ Graph.children (graph (reset w)).
Proof.
  intros Hb Hf w.
  pose proof (live_reachable g b ops Hb) as Hl. fold w in Hl.
  pose proof (wf_run ops _ (wf_constructor g b)) as Hw. fold w in Hw.
  assert (Hfo : Handler.fadeOut (this w) = false).
  { rewrite (wf_fadeOut w Hw). subst w.
    by rewrite options_fadeOut_run, constructor_options. }
  pose proof (live_sync w Hl Hfo) as Ht.
  split_and!; try done.
  - unfold step, timeout. by rewrite Ht.
  - intros d Hd. pose proof (reset_overlay w d Hd) as H.
    by rewrite Hfo in H.
Qed.

(** X7. The handler never hides an overlay: in every world reached from a
    pristine browser [isActive] holds exactly when the overlay reference is
    set, that is, exactly in state Dragging. *)
Theorem active_iff_overlay (g : Graph.t) (b : Browser.t) (ops : list Op) :
  pristine b →
  let w := run ops (constructor g b) in
  (isActive w = true ↔ is_Some (Handler.div (this w)))
  ∧ (isActive w = true ↔ dragState w = Dragging).
Proof.
  intros Hb w.
  pose proof (live_reachable g b ops Hb) as Hl. fold w in Hl.
  pose proof (wf_run ops _ (wf_constructor g b)) as Hw. fold w in Hw.
  pose proof (isActive_live w Hw Hl) as Ha.
  split; [done|]. rewrite Ha. unfold dragState.
  pose proof (wf_origin w Hw) as Ho.
  destruct (Handler.div (this w)), (Handler.origin (this w)).
  - split; eauto.
  - destruct Ho as [? [=]]; eauto.
  - split; [by intros [? [=]] | done].
  - split; [by intros [? [=]] | done].
Qed.

(** X8. Only a release selects. Every operation leaves the calls of
    [selectCellsInRegion] as they were, except a release in an active world,
    which appends one call with the rectangle held and the event of the
    release. *)
Theorem only_release_selects (w : World) (op : Op) :
  Graph.selectCalls (graph (step w op)) = Graph.selectCalls (graph w)
  ∨ ∃ e, op = Up e ∧ isActive w = true
         ∧ Graph.selectCalls (graph (step w op)) =
           Graph.selectCalls (graph w) ++
             [(rectangle w, MouseEventEx.getEvent e)].
Proof.
  destruct op as [n e|e|e|e| | | | | | | | ].
  4:{ destruct (isActive w) eqn:Ha.
      - right. exists e. split_and!; try done.
        unfold step. rewrite (mouseUp_active w e Ha). cbn [fst].
        destruct (execute_frame (MouseEventEx.getEvent e) (reset w))
          as (_ & _ & ->).
        by rewrite reset_selectCalls, reset_this.
      - left. unfold step. rewrite (mouseUp_inactive w e Ha).
        apply reset_selectCalls. }
  all: left.
  all: try (destruct e as [[] ? ?]).
  all: open_world w; norm; repeat case_match; simplify_eq; norm; done.
Qed.

(** ** Flags and bookkeeping *)

Lemma tidy_constructor g b : tidy (constructor g b).
Proof. destruct g as [[]], b. constructor; unfold constructor; norm; done. Qed.

Lemma tidy_step w op : tidy w → tidy (step w op).
Proof.
  each_op op; open_world w.
  all: intros [T1 T2 T3]; revert T1 T2 T3; norm; intros;
    repeat case_match; simplify_eq; constructor; norm;
    try done; eauto; try (by intros [=]).
Qed.

Lemma tidy_run ops w : tidy w → tidy (run ops w).
Proof.
  revert w. induction ops as [|op ops IH]; intros w Hw; [done|].
  apply IH, tidy_step, Hw.
Qed.

Lemma config_synced w :
  Handler.enabled (this w) = Graph.enabled (Graph.options (graph w)) →
  Handler.fadeOut (this w) = Graph.fadeOut (Graph.options (graph w)) →
  config w = w.
Proof.
  destruct w as [[] [[]] ?]. norm. cbn. by intros -> ->.
Qed.

(** X9. The flags follow the options. In every world reached from the
    constructor the handler's enabled flag equals [options.enabled] (which
    [enable] and [disable] write together with it), fade-out is what the
    options had at construction, and running [config] again changes
    nothing. *)
Theorem flags_follow_options (g : Graph.t) (b : Browser.t) (ops : list Op) :
  let w := run ops (constructor g b) in
  Handler.enabled (this w) = Graph.enabled (Graph.options (graph w))
  ∧ Handler.fadeOut (this w) = Graph.fadeOut (Graph.options g)
  ∧ Graph.fadeOut (Graph.options (graph w)) = Graph.fadeOut (Graph.options g)
  ∧ config w = w.
Proof.
  intros w.
  pose proof (tidy_run ops _ (tidy_constructor g b)) as Ht. fold w in Ht.
  pose proof (wf_run ops _ (wf_constructor g b)) as Hw. fold w in Hw.
  assert (Hf : Graph.fadeOut (Graph.options (graph w)) =
               Graph.fadeOut (Graph.options g)).
  { subst w. by rewrite options_fadeOut_run, constructor_options. }
  split_and!; try done.
  - apply (tidy_enabled w Ht).
  - by rewrite (wf_fadeOut w Hw).
  - apply config_synced; [apply (tidy_enabled w Ht) | apply (wf_fadeOut w Hw)].
Qed.

(** X10. The fields move together. In every world reached from the
    constructor: when Idle, overlay reference and both closures are null and
    the current position is (0,0); when Armed the current position is still
    (0,0); when not Idle both closures are set, the up closure made right
    after the move closure. *)
Theorem idle_is_clean (g : Graph.t) (b : Browser.t) (ops : list Op) :
  let w := run ops (constructor g b) in
  (dragState w = Idle →
   Handler.div (this w) = None
   ∧ Handler.onMouseMove (this w) = None
   ∧ Handler.onMouseUp (this w) = None
   ∧ Handler.currentX (this w) = 0 ∧ Handler.currentY (this w) = 0)
  ∧ (dragState w = Armed →
     Handler.currentX (this w) = 0 ∧ Handler.currentY (this w) = 0)
  ∧ (dragState w ≠ Idle →
     ∃ f, Handler.onMouseMove (this w) = Some f
          ∧ Handler.onMouseUp (this w) = Some (S f)).
Proof.
  intros w.
  pose proof (tidy_run ops _ (tidy_constructor g b)) as [_ Hl Hc].
  pose proof (wf_origin _ (wf_run ops _ (wf_constructor g b))) as Ho.
  fold w in Hl, Hc, Ho. unfold dragState.
  destruct (Handler.origin (this w)) as [o|],
           (Handler.div (this w)) as [d|]; split_and!; try done;
    try (by destruct Ho as [? [=]]; eauto).
  all: intros _; destruct Hl, (Hc eq_refl); done.
Qed.

(** ** A whole drag *)

(** X11. A whole drag, from any world reached from a pristine browser:
    an accepted pointer-down, the move that exceeds the tolerance, then the
    release, add exactly one call of [selectCellsInRegion], with the
    envelope of the pointer-down position and the move position less the pan
    offset and with the event of the release; the release is consumed and
    the handler is Idle. *)
Theorem drag_commits_envelope (g : Graph.t) (b : Browser.t) (ops : list Op)
    (w1 : World) (down e up : MouseEventEx.t) :
  pristine b →
  let w := run ops (constructor g b) in
  pointerDown w down w1 →
  exceedsTolerance w1 e →
  let w2 := fst (mouseMove e w1) in
  let w3 := fst (mouseUp up w2) in
  let p := getPosition e w in
  Graph.selectCalls (graph w3) =
    Graph.selectCalls (graph w) ++
      [(envelope (getPosition down w)
          (Point.x p - Graph.panX (graph w))
          (Point.y p - Graph.panY (graph w)),
        MouseEventEx.getEvent up)]
  ∧ MouseEventEx.isConsumed (snd (mouseUp up w2)) = true
  ∧ dragState w3 = Idle.
Proof.
  intros Hb w Hdown He w2 w3 p.
  pose proof (live_reachable g b ops Hb) as Hl. fold w in Hl.
  pose proof (wf_run ops _ (wf_constructor g b)) as Hw. fold w in Hw.
  assert (Hr : ∃ op, w1 = step w op).
  { destruct Hdown; eauto. }
  destruct Hr as [op Hop].
  assert (Hw2 : wf w2 ∧ live w2).
  { subst w2. change (fst (mouseMove e w1)) with (step w1 (Move e)).
    rewrite Hop. split.
    - by do 2 apply wf_step.
    - apply live_step; [by apply wf_step | by apply live_step]. }
  pose proof (pointerDown_prepare w down w1 Hdown) as E.
  rewrite prepare_eq in E. cbn [fst] in E.
  assert (Ho1 : Handler.origin (this w1) = Some (getPosition down w))
    by (by rewrite E, start_this).
  destruct (start_frame (Point.x (getPosition down w))
              (Point.y (getPosition down w)) w) as (Hg & _).
  rewrite <- E in Hg.
  destruct (exceeding_move_state w1 _ e He Ho1) as (Hd2 & _ & Hrect & Hsel & _).
  fold w2 in Hd2, Hrect, Hsel.
  assert (Hp : getPosition e w1 = getPosition e w)
    by (rewrite E; apply getPosition_start).
  rewrite Hp, Hg in Hrect. rewrite Hg in Hsel. fold p in Hrect.
  assert (Ha : isActive w2 = true).
  { apply isActive_live; [tauto..|]. rewrite Hd2. eauto. }
  subst w3. rewrite (mouseUp_active w2 up Ha). cbn [fst snd].
  destruct (execute_frame (MouseEventEx.getEvent up) (reset w2))
    as (Ht & _ & ->).
  unfold dragState. rewrite Ht, reset_selectCalls, !reset_this, Hsel.
  change (Rectangle.mk _ _ _ _) with (rectangle w2). by rewrite Hrect.
Qed.

(** ** Disabling and disposing *)

Ltac both_sides :=
  norm; repeat case_match; simplify_eq; norm; try done.


Lemma dispose_graph w :
  Graph.onMouseEvent (graph (dispose w)) = false
  ∧ Graph.onPan (graph (dispose w)) = false
  ∧ Graph.onGesture (graph (dispose w)) = false
  ∧ Graph.hasHandler (graph (dispose w)) = false.
Proof. open_world w; both_sides. Qed.

Lemma dispose_this w :
  this (dispose w) =
  Handler.mk (Handler.enabled (this w)) (Handler.fadeOut (this w))
    None None None None None 0 0
    (Handler.x (this w)) (Handler.y (this w))
    (Handler.width (this w)) (Handler.height (this w)).
Proof. open_world w; both_sides. Qed.

Lemma dispose_dispose w : dispose (dispose w) = dispose w.
Proof. open_world w; both_sides. Qed.

(** A bus notification does not reach a handler that is unsubscribed. *)
Lemma busOp_unsubscribed w op :
  busOp op →
  Graph.onMouseEvent (graph w) = false →
  Graph.onPan (graph w) = false →
  Graph.onGesture (graph w) = false →
  this (step w op) = this w
  ∧ browser (step w op) = browser w
  ∧ Graph.children (graph (step w op)) = Graph.children (graph w)
  ∧ Graph.selectCalls (graph (step w op)) = Graph.selectCalls (graph w)
  ∧ Graph.onMouseEvent (graph (step w op)) = false
  ∧ Graph.onPan (graph (step w op)) = false
  ∧ Graph.onGesture (graph (step w op)) = false.
Proof.
  destruct op; try done; intros _.
  all: destruct w as [? [] ?]; norm; intros -> -> ->; done.
Qed.

Lemma unsubscribed_run ops w :
  Forall busOp ops →
  Graph.onMouseEvent (graph w) = false →
  Graph.onPan (graph w) = false →
  Graph.onGesture (graph w) = false →
  this (run ops w) = this w
  ∧ browser (run ops w) = browser w
  ∧ Graph.children (graph (run ops w)) = Graph.children (graph w)
  ∧ Graph.selectCalls (graph (run ops w)) = Graph.selectCalls (graph w).
Proof.
  intros Hops. revert w.
  induction Hops as [|op ops Hop _ IH]; intros w H1 H2 H3; [done|].
  destruct (busOp_unsubscribed w op Hop H1 H2 H3)
    as (Et & Eb & Ec & Es & G1 & G2 & G3).
  destruct (IH _ G1 G2 G3) as (It & Ib & Ic & Is).
  unfold run in *. cbn [foldl]. by rewrite It, Ib, Ic, Is.
Qed.

(** X13. Disposal is final. After [dispose] the three subscriptions and
    the handler registration are gone, the shared overlay is released, the
    state is Idle, a second [dispose] changes nothing, and no sequence of
    bus notifications (mouse event, pan, gesture) changes the handler, the
    browser, the container or the selection calls. *)
Theorem dispose_is_final (w : World) (ops : list Op) :
  Forall busOp ops →
  let w' := dispose w in
  Graph.onMouseEvent (graph w') = false
  ∧ Graph.onPan (graph w') = false
  ∧ Graph.onGesture (graph w') = false
  ∧ Graph.hasHandler (graph w') = false
  ∧ Handler.sharedDiv (this w') = None
  ∧ dragState w' = Idle
  ∧ dispose w' = w'
  ∧ this (run ops w') = this w'
  ∧ browser (run ops w') = browser w'
  ∧ Graph.children (graph (run ops w')) = Graph.children (graph w')
  ∧ Graph.selectCalls (graph (run ops w')) = Graph.selectCalls (graph w').
Proof.
  intros Hops w'.
  destruct (dispose_graph w) as (H1 & H2 & H3 & H4). fold w' in H1, H2, H3, H4.
  destruct (unsubscribed_run ops w' Hops H1 H2 H3) as (It & Ib & Ic & Is).
  split_and!; try done.
  - subst w'. by rewrite dispose_this.
  - unfold dragState. subst w'. by rewrite dispose_this.
  - apply dispose_dispose.
Qed.

(** ** Repaint and fade-out *)

(** X14. Repainting twice is repainting once: a repeated pan
    notification with the same offset changes nothing further. *)
Theorem repaint_idempotent (w : World) : repaint (repaint w) = repaint w.
Proof.
  open_world w; norm; try done.
  all: rewrite alter_alter_eq; do 2 f_equal; by apply alter_ext.
Qed.

(** X15. With fade-out on, [reset] leaves the overlay in the container:
    the graph is untouched; the overlay gets opacity 0, no pointer events
    and the 0.2s transition, its class name and the rest of its style
    staying as they were; no other element changes; and its removal is
    queued behind the pending timers. When that timer fires (none pending
    before), exactly the overlay leaves the container, the other children
    keep their order, and the handler's fields are not touched. *)
Theorem fade_out_defers_removal (w : World) (d : HTMLDivElement) :
  Handler.fadeOut (this w) = true →
  Handler.div (this w) = Some d →
  graph (reset w) = graph w
  ∧ Browser.elements (browser (reset w)) !! d =
      fade <$> Browser.elements (browser w) !! d
  ∧ (∀ d', d' ≠ d →
       Browser.elements (browser (reset w)) !! d' =
       Browser.elements (browser w) !! d')
  ∧ Browser.timers (browser (reset w)) = Browser.timers (browser w) ++ [d]
  ∧ (Browser.timers (browser w) = [] →
     Graph.children (graph (timeout (reset w))) =
       filter (λ c, c ≠ d) (Graph.children (graph w))
     ∧ Browser.timers (browser (timeout (reset w))) = []
     ∧ this (timeout (reset w)) = this (reset w))
  ∧ (∀ el, Browser.elements (browser w) !! d = Some el →
       ∃ el', Browser.elements (browser (reset w)) !! d = Some el'
              ∧ fading el el').
Proof.
  intros Hf Hd.
  assert (Hfade : ∀ el, Browser.elements (browser w) !! d = Some el →
            ∃ el', Browser.elements (browser (reset w)) !! d = Some el'
                   ∧ fading el el').
  { intros el Hel.
    destruct (reset_fading w d el Hd Hf Hel) as (el' & H1 & H2 & _). eauto. }
  revert Hf Hd Hfade.
  open_world w; norm; intros [=] [= <-] Hfade; split_and!; try done.
  all: try (by rewrite lookup_alter_eq).
  all: try (intros d' Hd'; by rewrite lookup_alter_ne).
  all: intros ->; done.
Qed.

(** ** Elements and pans *)

Lemma withinTolerance_dec w o e :
  withinTolerance w o e ∨ ¬ withinTolerance w o e.
Proof. unfold withinTolerance. cbv zeta. lia. Qed.

Lemma mouseMove_ignored w e :
  MouseEventEx.isConsumed e = true ∨ Handler.origin (this w) = None →
  mouseMove e w = (w, e).
Proof.
  unfold mouseMove. intros [-> | ->]; [done|].
  by destruct (negb (MouseEventEx.isConsumed e)).
Qed.

Lemma mouseMove_elements w e :
  dom (Browser.elements (browser (fst (mouseMove e w)))) =
    dom (Browser.elements (browser w))
  ∨ exceedsTolerance w e
    ∧ Handler.sharedDiv (this w) = None
    ∧ dom (Browser.elements (browser (fst (mouseMove e w)))) =
      {[fresh (dom (Browser.elements (browser w)))]}
        ∪ dom (Browser.elements (browser w)).
Proof.
  destruct (MouseEventEx.isConsumed e) eqn:Hc;
    [left; rewrite mouseMove_ignored; auto|].
  destruct (Handler.origin (this w)) as [o|] eqn:Ho;
    [|left; rewrite mouseMove_ignored; auto].
  destruct (Handler.div (this w)) as [d|] eqn:Hd.
  { left. rewrite (mouseMove_dragging w d o e Hd Ho Hc). cbn [fst].
    by destruct (update_this (Point.x (getPosition e w))
                   (Point.y (getPosition e w))
                   (with_browser clearSelection w))
      as (_ & _ & _ & _ & _ & _ & -> & _). }
  destruct (withinTolerance_dec w o e) as [Hin|Hout].
  { left. by rewrite (mouseMove_within w o e Ho Hd Hin). }
  assert (He : exceedsTolerance w e) by (split_and!; eauto).
  destruct (mouseMove_exceeds w e He) as (_ & _ & ->).
  destruct (Handler.sharedDiv (this w)) as [s|] eqn:Hs.
  - left. by destruct (createShape_shared w s Hs) as (_ & ->).
  - right. split_and!; try done.
    destruct (createShape_fresh w Hs) as (_ & ->).
    rewrite dom_insert_L. f_equal.
    clear -Hs. revert Hs. open_world w; norm; done.
Qed.

(** X16. No operation makes an element, except the move that exceeds the
    tolerance while there is no shared overlay, which makes exactly one new
    element; elements are never dropped from the document's store. *)
Theorem elements_created_only_by_moves (w : World) (op : Op) :
  dom (Browser.elements (browser (step w op))) =
    dom (Browser.elements (browser w))
  ∨ ∃ e, op = Move e
      ∧ exceedsTolerance w e
      ∧ Handler.sharedDiv (this w) = None
      ∧ dom (Browser.elements (browser (step w op))) =
        {[fresh (dom (Browser.elements (browser w)))]}
          ∪ dom (Browser.elements (browser w)).
Proof.
  destruct op as [n e|e|e|e| | | | | | | | ].
  3:{ destruct (mouseMove_elements w e) as [H|H]; [by left|].
      right. by exists e. }
  all: left.
  all: try (destruct e as [[] ? ?]).
  all: open_world w; norm; repeat case_match; simplify_eq; norm;
    rewrite ?dom_alter_L; done.
Qed.

Lemma onPan_step w op :
  op ≠ Dispose →
  Graph.onPan (graph (step w op)) = Graph.onPan (graph w).
Proof.
  each_op op; try done; intros _.
  all: open_world w; both_sides.
Qed.

Lemma onPan_run ops w :
  Forall (λ op, op ≠ Dispose) ops →
  Graph.onPan (graph (run ops w)) = Graph.onPan (graph w).
Proof.
  intros Hops. revert w.
  induction Hops as [|op ops Hop _ IH]; intros w; [done|].
  unfold run in *. cbn [foldl]. by rewrite IH, onPan_step.
Qed.

(** X17. A pan in the middle of a drag moves the selection with it: from
    a world reached from a pristine browser, before [dispose], with overlay
    and origin set, a pan to a new offset followed by a release selects the
    envelope of the origin and the current position less the new offset. *)
Theorem pan_then_release (g : Graph.t) (b : Browser.t) (ops : list Op)
    (d : HTMLDivElement) (o : Point.t) (panX panY : Z)
    (up : MouseEventEx.t) :
  pristine b →
  Forall (λ op, op ≠ Dispose) ops →
  let w := run ops (constructor g b) in
  Handler.div (this w) = Some d →
  Handler.origin (this w) = Some o →
  let w' := run [Pan panX panY; Up up] w in
  Graph.selectCalls (graph w') =
    Graph.selectCalls (graph w) ++
      [(envelope o (Handler.currentX (this w) - panX)
                   (Handler.currentY (this w) - panY),
        MouseEventEx.getEvent up)].
Proof.
  intros Hb Hops w Hd Ho w'.
  pose proof (live_reachable g b (ops ++ [Pan panX panY]) Hb) as Hl.
  pose proof (wf_run (ops ++ [Pan panX panY]) _ (wf_constructor g b)) as Hw.
  rewrite run_snoc in Hl, Hw. fold w in Hl, Hw.
  assert (Hs : Graph.onPan (graph w) = true).
  { subst w. rewrite (onPan_run ops _ Hops). apply constructor_subscribes. }
  set (w0 := with_graph (Graph.set_pan panX panY) w).
  assert (E : step w (Pan panX panY) = repaint w0).
  { unfold step. fold w0.
    assert (Graph.onPan (graph w0) = true) as ->; [|done].
    rewrite <- Hs. subst w0. by destruct w as [? [] ?]. }
  rewrite E in Hl, Hw.
  assert (Hd0 : Handler.div (this w0) = Some d) by done.
  assert (Ho0 : Handler.origin (this w0) = Some o) by done.
  assert (Ha : isActive (repaint w0) = true).
  { apply isActive_live; [done..|].
    destruct (repaint_frame w0) as (_ & -> & _). rewrite Hd0. eauto. }
  subst w'. unfold run. cbn [foldl]. rewrite E.
  unfold step. rewrite (mouseUp_active _ up Ha). cbn [fst].
  destruct (execute_frame (MouseEventEx.getEvent up) (reset (repaint w0)))
    as (_ & _ & ->).
  rewrite reset_selectCalls, reset_this.
  cbn [Handler.x Handler.y Handler.width Handler.height].
  destruct (repaint_rect w0 d o Hd0 Ho0) as (-> & -> & -> & ->).
  destruct (repaint_frame w0) as (_ & _ & _ & _ & _ & _ & _ & _ & _ & ->).
  subst w0. by destruct w as [? [] ?].
Qed.

(** ** The further properties at the sample worlds *)

Lemma pristine_sample : pristine sampleBrowser.
Proof.
  split; [done|]. intros d el.
  change (Browser.elements sampleBrowser)
    with (∅ : gmap HTMLDivElement Element.t).
  by rewrite lookup_empty.
Qed.

Lemma exceeds_sample (fadeOut : bool) :
  exceedsTolerance (armedWorld fadeOut) (mouseAt 2 50 40).
Proof.
  split; [reflexivity|]. split; [by destruct fadeOut|].
  exists (Point.mk 10 10). split; [by destruct fadeOut|].
  intros [Hx _]. revert Hx. destruct fadeOut; by vm_compute.
Qed.

Lemma dragging_move_repaints_witness :
  rectangle (fst (mouseMove (mouseAt 3 5 70) (draggingWorld false))) =
  envelope (Point.mk 10 10)
    (Point.x (getPosition (mouseAt 3 5 70) (draggingWorld false))
     - Graph.panX (graph (draggingWorld false)))
    (Point.y (getPosition (mouseAt 3 5 70) (draggingWorld false))
     - Graph.panY (graph (draggingWorld false))).
Proof.
  exact (proj1 (proj2 (proj2 (proj2 (proj2 (proj2
    (dragging_move_repaints (draggingWorld false) 0%nat (Point.mk 10 10)
       (mouseAt 3 5 70) eq_refl eq_refl eq_refl))))))).
Defined.

Lemma exceeding_move_attaches_overlay_witness :
  ∃ d, Handler.div
         (this (fst (mouseMove (mouseAt 2 50 40) (armedWorld false)))) =
       Some d.
Proof.
  destruct (exceeding_move_attaches_overlay (armedWorld false)
              (Point.mk 10 10) (mouseAt 2 50 40) (exceeds_sample false)
              eq_refl) as (d & Hd & _).
  by exists d.
Defined.

Lemma overlay_stays_attached_witness :
  0%nat ∈ Graph.children
            (graph (run [Down (mouseAt 1 10 10); Move (mouseAt 2 50 40)]
                      (constructor (sampleGraph true) sampleBrowser))).
Proof.
  exact (proj1 (overlay_stays_attached (sampleGraph true) sampleBrowser
                  [Down (mouseAt 1 10 10); Move (mouseAt 2 50 40)] 0%nat
                  pristine_sample eq_refl)).
Defined.

Lemma no_timer_without_fadeOut_witness :
  Browser.timers
    (browser (run [Down (mouseAt 1 10 10); Move (mouseAt 2 50 40);
                   Up (mouseAt 3 50 40)]
                (constructor (sampleGraph false) sampleBrowser))) = [].
Proof.
  exact (proj1 (proj2 (no_timer_without_fadeOut (sampleGraph false)
    sampleBrowser
    [Down (mouseAt 1 10 10); Move (mouseAt 2 50 40); Up (mouseAt 3 50 40)]
    pristine_sample eq_refl))).
Defined.

Lemma active_iff_overlay_witness :
  isActive (run [Down (mouseAt 1 10 10); Move (mouseAt 2 50 40)]
              (constructor (sampleGraph true) sampleBrowser)) = true ↔
  is_Some (Handler.div
             (this (run [Down (mouseAt 1 10 10); Move (mouseAt 2 50 40)]
                      (constructor (sampleGraph true) sampleBrowser)))).
Proof.
  exact (proj1 (active_iff_overlay (sampleGraph true) sampleBrowser
                  [Down (mouseAt 1 10 10); Move (mouseAt 2 50 40)]
                  pristine_sample)).
Defined.

Lemma idle_is_clean_witness :
  Handler.onMouseMove
    (this (run [Down (mouseAt 1 10 10); Move (mouseAt 2 50 40); Gesture]
             (constructor (sampleGraph false) sampleBrowser))) = None.
Proof.
  refine (proj1 (proj2 (proj1 (idle_is_clean (sampleGraph false)
    sampleBrowser
    [Down (mouseAt 1 10 10); Move (mouseAt 2 50 40); Gesture]) _))).
  reflexivity.
Defined.

Lemma drag_commits_envelope_witness :
  dragState
    (fst (mouseUp (mouseAt 3 50 40)
            (fst (mouseMove (mouseAt 2 50 40) (armedWorld true))))) = Idle.
Proof.
  refine (proj2 (proj2 (drag_commits_envelope (sampleGraph true)
    sampleBrowser [] (armedWorld true) (mouseAt 1 10 10) (mouseAt 2 50 40)
    (mouseAt 3 50 40) pristine_sample _ (exceeds_sample true)))).
  apply pointerDown_normal. reflexivity.
Defined.

Lemma dispose_is_final_witness :
  this (run [Gesture; Pan 1 1; Notify "mouseDown" forcedEvent]
          (dispose (draggingWorld false))) =
  this (dispose (draggingWorld false)).
Proof.
  refine (proj1 (proj2 (proj2 (proj2 (proj2 (proj2 (proj2 (proj2
    (dispose_is_final (draggingWorld false)
       [Gesture; Pan 1 1; Notify "mouseDown" forcedEvent] _))))))))).
  repeat constructor.
Defined.

Lemma fade_out_defers_removal_witness :
  graph (reset (draggingWorld true)) = graph (draggingWorld true).
Proof.
  exact (proj1 (fade_out_defers_removal (draggingWorld true) 0%nat
                  eq_refl eq_refl)).
Defined.

Lemma pan_then_release_witness :
  let w := run [Down (mouseAt 1 10 10); Move (mouseAt 2 50 40)]
             (constructor (sampleGraph false) sampleBrowser) in
  Graph.selectCalls (graph (run [Pan 5 5; Up (mouseAt 3 50 40)] w)) =
  Graph.selectCalls (graph w) ++
    [(envelope (Point.mk 10 10)
        (Handler.currentX (this w) - 5) (Handler.currentY (this w) - 5),
      MouseEventEx.getEvent (mouseAt 3 50 40))].
Proof.
  refine (pan_then_release (sampleGraph false) sampleBrowser
    [Down (mouseAt 1 10 10); Move (mouseAt 2 50 40)] 0%nat (Point.mk 10 10)
    5 5 (mouseAt 3 50 40) pristine_sample _ eq_refl eq_refl).
  repeat constructor; discriminate.
Defined.
